(** * jupyter_client.launcher: a shallow embedding and its properties

    The module [jupyter_client/launcher.py] prepares the keyword arguments of
    a kernel subprocess ([prepare_process_args]), spawns it either with
    [subprocess.Popen] ([launch_kernel]) or with
    [asyncio.create_subprocess_exec] ([async_launch_kernel]) and patches the
    resulting process object ([finish_process_launch]).

    The code is imperative Python: it mutates dict objects that the caller
    may still hold, opens files, creates OS handles, logs and raises.  The
    embedding keeps all of that explicit: dict objects live in a heap and are
    passed by reference, every other effect is a field of the [world], and
    functions are written in a state-and-exception monad.

    The test module [tests/test_provisioning.py] is covered as far as it
    uses the launcher: the provisioner [CustomTestProvisioner] (poll, wait,
    send_signal, kill, terminate, launch_kernel) and the two entry-point
    mocks. *)

From stdpp Require Import gmap strings list fin_maps pretty.

Local Open Scope Z_scope.
Local Open Scope string_scope.

(** ** Python values *)

(** References to dict objects. *)
Abbreviation loc := positive.

(** The Python values that flow through the launcher.  [VDict] is a
    reference: two variables holding [VDict l] alias the same object. *)
Inductive pyval :=
  | VNone
  | VBool (b : bool)
  | VInt (z : Z)
  | VStr (s : string)
  | VFile (h : Z)
  | VDict (l : loc).

#[global] Instance pyval_eq_dec : EqDecision pyval.
Proof. solve_decision. Defined.

(** [subprocess.PIPE] is the integer -1. *)
Definition PIPE : pyval := VInt (-1).

(** [v is None] *)
Definition is_None (v : pyval) : bool :=
  match v with VNone => true | _ => false end.

(** Exceptions.  [KeyboardInterrupt] derives from [BaseException] only, the
    others from [Exception]. *)
Inductive exception :=
  | OSError (errno : Z)
  | TypeError
  | AttributeError
  | KeyError (k : string)
  | KeyboardInterrupt.

#[global] Instance exception_eq_dec : EqDecision exception.
Proof. solve_decision. Defined.

(** [isinstance(e, Exception)] *)
Definition is_Exception (e : exception) : bool :=
  match e with KeyboardInterrupt => false | _ => true end.

(** ** The world *)

(** What [get_logger().error(msg)] receives.  The message is built by
    [msg.format(cmd, env.get('PATH', os.defpath), without_env)]; the three
    formatted fields are kept, their rendering as text is not modelled. *)
Record log_entry := LogEntry {
  log_cmd : list string;
  log_path : pyval;
  log_kwargs : gmap string pyval;
}.

(** A handle made by [DuplicateHandle]. *)
Record dup_handle := DupHandle {
  dup_source : Z;
  dup_target_process : Z;
  dup_inheritable : bool;
  dup_options : Z;
  dup_result : Z;
}.

Record world := World {
  heap : gmap loc (gmap string pyval);  (* the dict objects *)
  next_handle : Z;                      (* next OS handle / descriptor *)
  devnull_files : list Z;               (* files open on os.devnull *)
  events : list Z;                      (* interrupt events created *)
  duplicated : list dup_handle;         (* handles duplicated *)
  spawned : list (list string);         (* argv of every spawn attempt *)
  logged : list log_entry;              (* error log, newest first *)
}.

Definition set_heap (f : gmap loc (gmap string pyval) → gmap loc (gmap string pyval))
    (w : world) : world :=
  World (f (heap w)) (next_handle w) (devnull_files w) (events w) (duplicated w)
        (spawned w) (logged w).

(** The interpreter the launcher runs in: [sys.platform], [sys.executable],
    [os.getpid()], [os.defpath] and the object [os.environ]. *)
Record interp := Interp {
  platform : string;
  executable : string;
  getpid : Z;
  defpath : string;
  environ : loc;
}.

(** ** The monad: state and exceptions *)

Inductive outcome (A : Type) :=
  | Ret (a : A)
  | Raise (e : exception).
Arguments Ret {A} a.
Arguments Raise {A} e.

Definition M (A : Type) : Type := world → outcome A * world.

#[global] Instance M_ret : MRet M := λ A a w, (Ret a, w).

#[global] Instance M_bind : MBind M := λ A B f m w,
  match m w with
  | (Ret a, w') => f a w'
  | (Raise e, w') => (Raise e, w')
  end.

Definition raise {A} (e : exception) : M A := λ w, (Raise e, w).

(** [try: body  except Exception as exc: handler exc].  An exception that is
    not an [Exception] passes through. *)
Definition try_except {A} (body : M A) (handler : exception → M A) : M A := λ w,
  match body w with
  | (Ret a, w') => (Ret a, w')
  | (Raise e, w') => if is_Exception e then handler e w' else (Raise e, w')
  end.

(** ** Dict objects *)

(** The contents of the dict at [l]. *)
Definition deref (l : loc) (w : world) : gmap string pyval :=
  default ∅ (heap w !! l).

(** A new dict object with contents [d]. *)
Definition new_dict (d : gmap string pyval) : M loc := λ w,
  let l := fresh (dom (heap w)) in
  (Ret l, set_heap (insert l d) w).

(** [d.copy()] *)
Definition dict_copy (l : loc) : M loc := λ w, new_dict (deref l w) w.

(** [**d] at a call site and [d.items()]: the contents, read now. *)
Definition dict_items (l : loc) : M (gmap string pyval) := λ w, (Ret (deref l w), w).

(** [d[k] = v] *)
Definition setitem (l : loc) (k : string) (v : pyval) : M unit := λ w,
  (Ret tt, set_heap (insert l (<[k := v]> (deref l w))) w).

(** [d[k]] *)
Definition getitem (l : loc) (k : string) : M pyval := λ w,
  match deref l w !! k with
  | Some v => (Ret v, w)
  | None => (Raise (KeyError k), w)
  end.

(** [d.get(k, dflt)] *)
Definition dict_get (l : loc) (k : string) (dflt : pyval) : M pyval := λ w,
  (Ret (default dflt (deref l w !! k)), w).

(** [d.setdefault(k, dflt)] *)
Definition setdefault (l : loc) (k : string) (dflt : pyval) : M pyval := λ w,
  match deref l w !! k with
  | Some v => (Ret v, w)
  | None => (Ret dflt, set_heap (insert l (<[k := dflt]> (deref l w))) w)
  end.

(** [d.update(other)]: the entries of [other] win. *)
Definition dict_update (l : loc) (other : gmap string pyval) : M unit := λ w,
  (Ret tt, set_heap (insert l (other ∪ deref l w)) w).

(** Truth value of an object, as tested by [if v:]. *)
Definition truthy (v : pyval) : M bool := λ w,
  (Ret match v with
       | VNone => false
       | VBool b => b
       | VInt z => negb (z =? 0)%Z
       | VStr s => negb (String.length s =? 0)%nat
       | VFile _ => true
       | VDict l => negb (bool_decide (deref l w = ∅))
       end, w).

(** [a | b] on integers ([bool] is a subclass of [int]); a [TypeError] on
    the other values of this model. *)
Definition py_or (a b : pyval) : M pyval :=
  let as_int v := match v with
                  | VInt z => Some z
                  | VBool c => Some (if c then 1 else 0)
                  | _ => None
                  end in
  match as_int a, as_int b with
  | Some x, Some y => mret (VInt (Z.lor x y))
  | _, _ => raise TypeError
  end.

(** [s.endswith(suffix)] *)
Definition endswith (s suffix : string) : bool :=
  let n := String.length s in
  let k := String.length suffix in
  (k <=? n)%nat && bool_decide (String.substring (n - k)%nat k s = suffix).

(** ** The operating system *)

Definition fresh_handle : M Z := λ w,
  (Ret (next_handle w),
   World (heap w) (next_handle w + 1) (devnull_files w) (events w) (duplicated w)
         (spawned w) (logged w)).

(** [open(os.devnull, 'w')]: a new file object on a new descriptor. *)
Definition open_devnull : M pyval := λ w,
  match fresh_handle w with
  | (Ret h, w') =>
      (Ret (VFile h),
       World (heap w') (next_handle w') (h :: devnull_files w') (events w')
             (duplicated w') (spawned w') (logged w'))
  | (Raise e, w') => (Raise e, w')
  end.

(** Modelled from the spec: [win_interrupt.create_interrupt_event] is not
    among the sources.  Section 4.1: it "creates a named, inheritable OS
    event object, returns an opaque numeric handle". *)
Definition create_interrupt_event : M Z := λ w,
  match fresh_handle w with
  | (Ret h, w') =>
      (Ret h,
       World (heap w') (next_handle w') (devnull_files w') (h :: events w')
             (duplicated w') (spawned w') (logged w'))
  | (Raise e, w') => (Raise e, w')
  end.

(** [_winapi] constants and functions. *)
Definition CREATE_NEW_PROCESS_GROUP : Z := 0x00000200.
Definition CREATE_NO_WINDOW : Z := 0x08000000.
Definition DUPLICATE_SAME_ACCESS : Z := 2.

(** [GetCurrentProcess()] returns the pseudo handle of the calling process. *)
Definition current_process_handle : Z := -1.
Definition GetCurrentProcess : M Z := mret current_process_handle.

(** [DuplicateHandle(source_process, source, target_process, access,
    inherit, options)] *)
Definition DuplicateHandle (source_process source target_process access : Z)
    (inherit : bool) (options : Z) : M Z := λ w,
  match fresh_handle w with
  | (Ret h, w') =>
      (Ret h,
       World (heap w') (next_handle w') (devnull_files w') (events w')
             (DupHandle source target_process inherit options h :: duplicated w')
             (spawned w') (logged w'))
  | (Raise e, w') => (Raise e, w')
  end.

(** [get_logger().error(msg)] *)
Definition log_error (entry : log_entry) : M unit := λ w,
  (Ret tt,
   World (heap w) (next_handle w) (devnull_files w) (events w) (duplicated w)
         (spawned w) (entry :: logged w)).

(** ** Process objects *)

(** A process object as the launcher sees it: its [stdin] attribute ([None],
    or a stream that is open or closed) and the attribute
    [win32_interrupt_event], which exists only once it has been assigned. *)
Record proc := Proc {
  proc_pid : Z;
  proc_stdin : option bool;                     (* Some closed? *)
  win32_interrupt_event : option (option Z);
}.

(** ** Concrete interpreters and worlds, for running the model *)

Definition posix_sys : interp :=
  Interp "linux" "/usr/bin/python3" 4242 "/bin:/usr/bin" 1%positive.
Definition win_sys : interp :=
  Interp "win32" "C:\Python\python.exe" 4242 ".;C:\bin" 1%positive.
Definition pythonw_sys : interp :=
  Interp "win32" "C:\Python\pythonw.exe" 4242 ".;C:\bin" 1%positive.

(** A world whose [os.environ] (at location 1) holds a PATH and in which
    the caller owns one more dict, at location 2. *)
Definition world0 : world :=
  World (<[1%positive := <["PATH" := VStr "/usr/bin"]> ∅]>
          (<[2%positive := <["HOME" := VStr "/root"]> ∅]> ∅))
        100 [] [] [] [] [].

Definition spawn_ok : list string → gmap string pyval → world → exception + Z :=
  λ _ _ _, inr 77.
Definition spawn_enoent : list string → gmap string pyval → world → exception + Z :=
  λ _ _ _, inl (OSError 2).

(** ** The entry-point mocks of tests/test_provisioning.py *)

(** [EntryPoint(name, value, group)] *)
Record EntryPoint := Build_EntryPoint {
  ep_name : string;
  ep_value : string;
  ep_group : string;
}.

#[global] Instance EntryPoint_eq_dec : EqDecision EntryPoint.
Proof. solve_decision. Defined.

(** The module-level dict, in insertion order. *)
Definition initial_provisioner_map : list (string * string) :=
  [("local-provisioner", "jupyter_client.provisioning:LocalProvisioner");
   ("subclassed-test-provisioner", "tests.test_provisioning:SubclassedTestProvisioner");
   ("custom-test-provisioner", "tests.test_provisioning:CustomTestProvisioner")].

(** [d.get(name)] on a dict written as its items. *)
Fixpoint items_get (name : string) (d : list (string * string)) : option string :=
  match d with
  | [] => None
  | (k, v) :: d => if decide (k = name) then Some v else items_get name d
  end.

Inductive entry_point_error :=
  | ValueError (msg : string).

(** [GROUP_NAME] stands for [KernelProvisionerFactory.GROUP_NAME], which is
    not among the sources. *)
Definition mock_get_all_provisioners (GROUP_NAME : string) : list EntryPoint :=
  (λ '(name, epstr), Build_EntryPoint name epstr GROUP_NAME)
    <$> initial_provisioner_map.

Definition mock_get_provisioner (GROUP_NAME : string) (_ : string) (name : string)
    : entry_point_error + EntryPoint :=
  if decide (name = "new-test-provisioner") then
    inr (Build_EntryPoint "new-test-provisioner"
           "tests.test_provisioning:NewTestProvisioner" GROUP_NAME)
  else
    match items_get name initial_provisioner_map with
    | Some epstr => inr (Build_EntryPoint name epstr GROUP_NAME)
    | None => inl (ValueError "No such entry point")
    end.

(** ** The state of a CustomTestProvisioner (tests/test_provisioning.py) *)

(** What the provisioner asks of the operating system and of its process
    object, newest first. *)
Inductive os_call :=
  | SendInterrupt (event : option Z)        (* win_interrupt.send_interrupt *)
  | KillPg (pgid signum : Z)                (* os.killpg *)
  | SendSignal (pid signum : Z)             (* process.send_signal *)
  | Kill (pid : Z)                          (* process.kill *)
  | Terminate (pid : Z)                     (* process.terminate *)
  | Close (pid : Z) (attr : string).        (* getattr(process, attr).close() *)

(** The process object with the attributes the provisioner reads beyond
    those the launcher touches: the streams stdout and stderr (None, or a
    stream) and [returncode]. *)
Record process_object := ProcessObject {
  po_proc : proc;
  po_stdout : option bool;
  po_stderr : option bool;
  po_returncode : option Z;
}.

(** The provisioner object, the world it launches in, the number of
    [asyncio.sleep(0.1)] that have elapsed and the calls made so far. *)
Record provisioner := Provisioner {
  self_world : world;
  self_process : option process_object;
  self_pid : option Z;
  self_pgid : option Z;
  self_connection_info : pyval;
  clock : nat;
  os_calls : list os_call;
}.

(** [signal.SIGINT] *)
Definition SIGINT : Z := 2.

(** A stream attribute of a process object exists when the argument of the
    spawn was [PIPE]. *)
Definition stream_of (arg : pyval) : option bool :=
  if bool_decide (arg = PIPE) then Some false else None.

(** [self.process is not None] *)
Definition CustomTestProvisioner_has_process (self : provisioner) : bool :=
  match self_process self with Some _ => true | None => false end.

Definition set_process (p : option process_object) (self : provisioner) : provisioner :=
  Provisioner (self_world self) p (self_pid self) (self_pgid self)
              (self_connection_info self) (clock self) (os_calls self).

Definition record_call (c : os_call) (self : provisioner) : provisioner :=
  Provisioner (self_world self) (self_process self) (self_pid self) (self_pgid self)
              (self_connection_info self) (clock self) (c :: os_calls self).

(** Modelled from the spec: [win_interrupt.send_interrupt] is not among the
    sources.  Section 4.1: signalling with interrupt semantics sets the
    event; here the call is recorded with the handle it was given. *)
Definition send_interrupt (event : option Z) (self : provisioner) : provisioner :=
  record_call (SendInterrupt event) self.

(** [await asyncio.sleep(0.1)] *)
Definition asyncio_sleep (self : provisioner) : provisioner :=
  Provisioner (self_world self) (self_process self) (self_pid self) (self_pgid self)
              (self_connection_info self) (S (clock self)) (os_calls self).

(** Concrete provisioners, for running the model: one without a process
    and one that holds the process 77, with a closed stdin pipe and an open
    stdout pipe.  [exits_after n code] is an operating system for which
    every process runs for [n] sleeps and then has exited with [code]. *)
Definition provisioner0 : provisioner :=
  Provisioner world0 None None None VNone 0 [].
Definition process77 : process_object :=
  ProcessObject (Proc 77 (Some true) None) (Some false) None None.
Definition provisioner77 : provisioner :=
  Provisioner world0 (Some process77) (Some 77) (Some 77) VNone 0 [].
Definition exits_after (n : nat) (code : Z) : Z → nat → option Z :=
  λ _ now, if (now <? n)%nat then None else Some code.

(** ** The launcher *)

Section Launcher.

(** The running interpreter. *)
Variable sys : interp.

(** [os.path.expanduser], on strings. *)
Variable expanduser : string → string.

(** What the operating system answers to a spawn request made through
    [subprocess.Popen], respectively [asyncio.create_subprocess_exec]: an
    exception, or the pid of the child. *)
Variable popen_outcome : list string → gmap string pyval → world → exception + Z.
Variable async_outcome : list string → gmap string pyval → world → exception + Z.

Definition record_spawn (args : list string) (w : world) : world :=
  World (heap w) (next_handle w) (devnull_files w) (events w) (duplicated w)
        (args :: spawned w) (logged w).

(** The process object of a child that was spawned: its [stdin] attribute
    is a stream when the [stdin] argument was [PIPE] and [None]
    otherwise (the documented contract of both spawn functions). *)
Definition new_proc (pid : Z) (kwargs : gmap string pyval) : proc :=
  Proc pid
       (if bool_decide (kwargs !! "stdin" = Some PIPE) then Some false else None)
       None.

(** [Popen(args, **kwargs)] *)
Definition Popen (args : list string) (kwargs : gmap string pyval) : M proc := λ w,
  match popen_outcome args kwargs w with
  | inl e => (Raise e, record_spawn args w)
  | inr pid => (Ret (new_proc pid kwargs), record_spawn args w)
  end.

(** [await asyncio.create_subprocess_exec] applied to the unpacked [args]
    and [kwargs], run to
    completion. *)
Definition create_subprocess_exec (args : list string) (kwargs : gmap string pyval)
    : M proc := λ w,
  match async_outcome args kwargs w with
  | inl e => (Raise e, record_spawn args w)
  | inr pid => (Ret (new_proc pid kwargs), record_spawn args w)
  end.

Definition win32 : bool := bool_decide (platform sys = "win32").

Definition prepare_process_args (stdin stdout stderr : pyval) (env : option loc)
    (independent : bool) (cwd : pyval) (kw : gmap string pyval)
    : M (loc * option Z) :=
  (* the parameter **kw is bound to a dict of its own *)
  kw ← new_dict kw;
  let redirect_in := true in
  let _stdin := if is_None stdin then PIPE else stdin in
  let redirect_out := endswith (executable sys) "pythonw.exe" in
  '(_stdout, _stderr) ←
    (if redirect_out then
       blackhole ← open_devnull;
       mret (if is_None stdout then blackhole else stdout,
             if is_None stderr then blackhole else stderr)
     else mret (stdout, stderr));
  env ← match env with
        | Some env => mret env
        | None => dict_copy (environ sys)
        end;
  kwargs ← dict_copy kw;
  let main_args : gmap string pyval :=
    <["stdin" := _stdin]> (<["stdout" := _stdout]> (<["stderr" := _stderr]>
      (<["cwd" := cwd]> (<["env" := VDict env]> ∅)))) in
  dict_update kwargs main_args;;
  interrupt_event ←
    (if win32 then
       c ← truthy cwd;
       (if c : bool then setitem kwargs "cwd" cwd else mret tt);;
       interrupt_event ← create_interrupt_event;
       setitem env "JPY_INTERRUPT_EVENT" (VStr (pretty interrupt_event));;
       v ← getitem env "JPY_INTERRUPT_EVENT";
       setitem env "IPY_INTERRUPT_EVENT" v;;
       (if independent then
          setitem kwargs "creationflags" (VInt CREATE_NEW_PROCESS_GROUP)
        else
          pid ← GetCurrentProcess;
          handle ← DuplicateHandle pid pid pid 0 true DUPLICATE_SAME_ACCESS;
          setitem env "JPY_PARENT_PID" (VStr (pretty handle)));;
       (if redirect_out then
          flags ← setdefault kwargs "creationflags" (VInt 0);
          flags ← py_or flags (VInt 0x08000000);
          setitem kwargs "creationflags" flags
        else mret tt);;
       setitem kwargs "close_fds" (VBool false);;
       mret (Some interrupt_event)
     else
       setitem kwargs "start_new_session" (VBool true);;
       (if negb independent then
          setitem env "JPY_PARENT_PID" (VStr (pretty (getpid sys)))
        else mret tt);;
       mret None);
  mret (kwargs, interrupt_event).

(** The process object is mutated in place by the source; it has a single
    holder, so the updated object is returned instead. *)
Definition finish_process_launch (subprocess : proc) (stdin : pyval)
    (interrupt_event : option Z) : M proc :=
  subprocess ←
    (if win32 then
       mret (Proc (proc_pid subprocess) (proc_stdin subprocess) (Some interrupt_event))
     else mret subprocess);
  if is_None stdin then
    match proc_stdin subprocess with
    | Some _ =>
        mret (Proc (proc_pid subprocess) (Some true) (win32_interrupt_event subprocess))
    | None => raise AttributeError    (* None has no attribute close *)
    end
  else mret subprocess.

(** [env.get('PATH', os.defpath)] where [env] may be [None]. *)
Definition env_get_PATH (env : option loc) : M pyval :=
  match env with
  | Some env => dict_get env "PATH" (VStr (defpath sys))
  | None => raise AttributeError      (* None has no attribute get *)
  end.

(** [{key: value for key, value in kwargs.items() if key != 'env'}] *)
Definition without_env (kwargs : gmap string pyval) : gmap string pyval :=
  filter (λ kv, kv.1 ≠ "env") kwargs.

(** [cmd = list(map(os.path.expanduser, cmd))] never raises on strings, so
    the handler always sees the expanded command. *)
Definition launch_kernel (cmd : list string) (stdin stdout stderr : pyval)
    (env : option loc) (independent : bool) (cwd : pyval)
    (kw : gmap string pyval) : M proc :=
  '(kwargs, interrupt_event) ←
    prepare_process_args stdin stdout stderr env independent cwd kw;
  let cmd := expanduser <$> cmd in
  proc ← try_except
    (args ← dict_items kwargs;
     Popen cmd args)
    (λ exc,
       items ← dict_items kwargs;
       let without_env := without_env items in
       path ← env_get_PATH env;
       log_error (LogEntry cmd path without_env);;
       raise exc);
  proc ← finish_process_launch proc stdin interrupt_event;
  mret proc.

Definition async_launch_kernel (cmd : list string) (stdin stdout stderr : pyval)
    (env : option loc) (independent : bool) (cwd : pyval)
    (kw : gmap string pyval) : M proc :=
  '(kwargs, interrupt_event) ←
    prepare_process_args stdin stdout stderr env independent cwd kw;
  let cmd := expanduser <$> cmd in
  proc ← try_except
    (args ← dict_items kwargs;
     create_subprocess_exec cmd args)
    (λ exc,
       items ← dict_items kwargs;
       let without_env := without_env items in
       path ← env_get_PATH env;
       log_error (LogEntry cmd path without_env);;
       raise exc);
  proc ← finish_process_launch proc stdin interrupt_event;
  mret proc.


(** ** Closed forms

    What [prepare_process_args] computes, written out as functions of its
    inputs.  [prepare_process_args_run] below proves that the code computes
    exactly these. *)

Definition windowed : bool := endswith (executable sys) "pythonw.exe".
Definition live (l : loc) (w : world) : Prop := is_Some (heap w !! l).
Definition kw_object (w : world) : loc := fresh (dom (heap w)).

Definition flags_ok (kw : gmap string pyval) : bool :=
  match kw !! "creationflags" with
  | None | Some (VInt _) | Some (VBool _) => true
  | _ => false
  end.

Definition flags_of (v : option pyval) : Z :=
  match v with
  | Some (VInt z) => z
  | Some (VBool true) => 1
  | _ => 0
  end.

Definition blackhole_handle (w : world) : Z := next_handle w.
Definition event_handle (w : world) : Z :=
  if windowed then next_handle w + 1 else next_handle w.

Definition stream_arg (v : pyval) (w : world) : pyval :=
  if windowed then (if is_None v then VFile (blackhole_handle w) else v) else v.

Definition expected_kwargs (stdin stdout stderr : pyval) (le : loc)
    (independent : bool) (cwd : pyval) (kw : gmap string pyval) (w : world)
    : gmap string pyval :=
  let K0 := <["stdin" := if is_None stdin then PIPE else stdin]>
              (<["stdout" := stream_arg stdout w]> (<["stderr" := stream_arg stderr w]>
                (<["cwd" := cwd]> (<["env" := VDict le]> ∅)))) ∪ kw in
  if win32 then
    let K1 := if independent
              then <["creationflags" := VInt CREATE_NEW_PROCESS_GROUP]> K0 else K0 in
    let K2 := if windowed
              then <["creationflags" :=
                       VInt (Z.lor (flags_of (K1 !! "creationflags")) CREATE_NO_WINDOW)]> K1
              else K1 in
    <["close_fds" := VBool false]> K2
  else <["start_new_session" := VBool true]> K0.

Definition child_env (independent : bool) (w : world) (E : gmap string pyval)
    : gmap string pyval :=
  if win32 then
    let E1 := <["IPY_INTERRUPT_EVENT" := VStr (pretty (event_handle w))]>
                (<["JPY_INTERRUPT_EVENT" := VStr (pretty (event_handle w))]> E) in
    if independent then E1
    else <["JPY_PARENT_PID" := VStr (pretty (event_handle w + 1))]> E1
  else if independent then E
       else <["JPY_PARENT_PID" := VStr (pretty (getpid sys))]> E.

Record prepared (stdin stdout stderr : pyval) (env : option loc) (independent : bool)
    (cwd : pyval) (kw : gmap string pyval) (w : world)
    (kwargs le : loc) (ev : option Z) (w' : world) : Prop := {
  prep_heap :
    heap w' = <[kwargs := expected_kwargs stdin stdout stderr le independent cwd kw w]>
                (<[le := child_env independent w (deref (default (environ sys) env) w)]>
                   (<[kw_object w := kw]> (heap w)));
  prep_kwargs_fresh : heap w !! kwargs = None;
  prep_kwargs_ne_env : kwargs ≠ le;
  prep_kwargs_ne_kw : kwargs ≠ kw_object w;
  prep_env_ne_kw : le ≠ kw_object w;
  prep_env_loc : match env with Some l => le = l | None => heap w !! le = None end;
  prep_event : ev = if win32 then Some (event_handle w) else None;
  prep_files :
    devnull_files w' = if windowed then blackhole_handle w :: devnull_files w
                       else devnull_files w;
  prep_events : events w' = if win32 then event_handle w :: events w else events w;
  prep_dups :
    duplicated w' =
      if win32 && negb independent
      then DupHandle current_process_handle current_process_handle true DUPLICATE_SAME_ACCESS (event_handle w + 1) :: duplicated w
      else duplicated w;
  prep_spawned : spawned w' = spawned w;
  prep_logged : logged w' = logged w;
}.

(** The keys of the spawn arguments that the function itself writes. *)
Definition written_keys : list string :=
  ["stdin"; "stdout"; "stderr"; "cwd"; "env";
   "creationflags"; "close_fds"; "start_new_session"].

(** The environment variables the function itself writes. *)
Definition injected_keys : list string :=
  ["JPY_PARENT_PID"; "JPY_INTERRUPT_EVENT"; "IPY_INTERRUPT_EVENT"].

(** ** CustomTestProvisioner (tests/test_provisioning.py)

    The coroutines are run to completion.  The operating system answers
    through the following functions. *)

Section Provisioner.

(** What [process.poll()] sees for a pid after so many sleeps: None while
    the process runs, its exit code afterwards. *)
Variable poll_outcome : Z → nat → option Z.
(** The exit code a blocking [process.wait()] returns. *)
Variable wait_outcome : Z → Z.
(** [os.killpg(pgid, signum)]: None, or the exception it raises. *)
Variable killpg_outcome : Z → Z → option exception.
(** [os.getpgid(pid)] *)
Variable getpgid_outcome : Z → exception + Z.
(** [hasattr(os, "getpgid")] and [hasattr(os, "killpg")] *)
Variable has_getpgid has_killpg : bool.

(** [process.poll()]: the return code once known, else what the operating
    system reports, which is then kept. *)
Definition Popen_poll (now : nat) (p : process_object) : option Z * process_object :=
  match po_returncode p with
  | Some c => (Some c, p)
  | None =>
      match poll_outcome (proc_pid (po_proc p)) now with
      | Some c => (Some c, ProcessObject (po_proc p) (po_stdout p) (po_stderr p) (Some c))
      | None => (None, p)
      end
  end.

(** [process.wait()] *)
Definition Popen_wait (p : process_object) : Z :=
  match po_returncode p with
  | Some c => c
  | None => wait_outcome (proc_pid (po_proc p))
  end.

Definition CustomTestProvisioner_poll (self : provisioner) : option Z * provisioner :=
  let ret := Some 0 in
  match self_process self with
  | Some p =>
      let '(ret, p) := Popen_poll (clock self) p in
      (ret, set_process (Some p) self)
  | None => (ret, self)
  end.

(** [while await self.poll() is None: await asyncio.sleep(0.1)], for at most
    [fuel] turns; None when the fuel runs out. *)
Fixpoint wait_loop (fuel : nat) (self : provisioner) : option provisioner :=
  match fuel with
  | O => None
  | S fuel =>
      let '(r, self) := CustomTestProvisioner_poll self in
      match r with
      | None => wait_loop fuel (asyncio_sleep self)
      | Some _ => Some self
      end
  end.

(** [for attr in ["stdout", "stderr", "stdin"]: ... fid.close()] *)
Definition close_streams (p : process_object) (self : provisioner) : provisioner :=
  let pid := proc_pid (po_proc p) in
  let close attr (fid : option bool) self :=
    match fid with
    | Some _ => record_call (Close pid attr) self
    | None => self
    end in
  close "stdin" (proc_stdin (po_proc p))
    (close "stderr" (po_stderr p) (close "stdout" (po_stdout p) self)).

Definition CustomTestProvisioner_wait (fuel : nat) (self : provisioner)
    : option (outcome Z * provisioner) :=
  let ret := 0 in
  match self_process self with
  | Some _ =>
      match wait_loop fuel self with
      | None => None
      | Some self =>
          match self_process self with
          | Some p =>
              let ret := Popen_wait p in
              let self := close_streams p self in
              let self := set_process None self in
              Some (Ret ret, self)
          | None => Some (Raise AttributeError, self)
          end
      end
  | None => Some (Ret ret, self)
  end.

Definition CustomTestProvisioner_send_signal (signum : Z) (self : provisioner)
    : outcome unit * provisioner :=
  match self_process self with
  | Some p =>
      if bool_decide (signum = SIGINT) && win32 then
        match win32_interrupt_event (po_proc p) with
        | Some event => (Ret tt, send_interrupt event self)
        | None => (Raise AttributeError, self)
        end
      else
        let direct self :=
          (Ret tt, record_call (SendSignal (proc_pid (po_proc p)) signum) self) in
        match self_pgid self with
        | Some pgid =>
            if negb (pgid =? 0)%Z && has_killpg then
              let self := record_call (KillPg pgid signum) self in
              match killpg_outcome pgid signum with
              | None => (Ret tt, self)
              | Some (OSError _) => direct self
              | Some e => (Raise e, self)
              end
            else direct self
        | None => direct self
        end
  | None => (Ret tt, self)
  end.

Definition CustomTestProvisioner_kill (restart : bool) (self : provisioner)
    : outcome unit * provisioner :=
  match self_process self with
  | Some p => (Ret tt, record_call (Kill (proc_pid (po_proc p))) self)
  | None => (Ret tt, self)
  end.

Definition CustomTestProvisioner_terminate (restart : bool) (self : provisioner)
    : outcome unit * provisioner :=
  match self_process self with
  | Some p => (Ret tt, record_call (Terminate (proc_pid (po_proc p))) self)
  | None => (Ret tt, self)
  end.

(** The keyword arguments are written as the parameters of the launcher's
    [launch_kernel] they bind to. *)
Definition CustomTestProvisioner_launch_kernel (cmd : list string)
    (stdin stdout stderr : pyval) (env : option loc) (independent : bool)
    (cwd : pyval) (kw : gmap string pyval) (self : provisioner)
    : outcome pyval * provisioner :=
  match launch_kernel cmd stdin stdout stderr env independent cwd kw (self_world self) with
  | (Raise e, w) =>
      (Raise e,
       Provisioner w (self_process self) (self_pid self) (self_pgid self)
                   (self_connection_info self) (clock self) (os_calls self))
  | (Ret p, w) =>
      let process := ProcessObject p (stream_of stdout) (stream_of stderr) None in
      let with_process :=
        Provisioner w (Some process) (self_pid self) (self_pgid self)
                    (self_connection_info self) (clock self) (os_calls self) in
      let finish pgid :=
        (Ret (self_connection_info self),
         Provisioner w (Some process) (Some (proc_pid p)) pgid
                     (self_connection_info self) (clock self) (os_calls self)) in
      if has_getpgid then
        match getpgid_outcome (proc_pid p) with
        | inr pgid => finish (Some pgid)
        | inl (OSError _) => finish None
        | inl e => (Raise e, with_process)
        end
      else finish None
  end.

(** [cleanup] does nothing. *)
Definition CustomTestProvisioner_cleanup (restart : bool) (self : provisioner)
    : outcome unit * provisioner :=
  (Ret tt, self).

End Provisioner.

(** ** Running the monad step by step *)

Lemma bind_run {A B} (m : M A) (f : A → M B) w a w1 r :
m w = (Ret a, w1) → f a w1 = r → (m ≫= f) w = r.
Proof. intros Hm Hf. unfold mbind, M_bind. rewrite Hm. exact Hf. Qed.

Lemma bind_raise {A B} (m : M A) (f : A → M B) w e w1 :
m w = (Raise e, w1) → (m ≫= f) w = (Raise e, w1).
Proof. intros Hm. unfold mbind, M_bind. rewrite Hm. reflexivity. Qed.

Lemma ret_run {A} (a : A) w : (mret a : M A) w = (Ret a, w).
Proof. reflexivity. Qed.

(** The primitives on a world whose heap is written with the dict of
  interest on top: each one is a single rewriting step. *)
Section Dicts.
Context (H : gmap loc (gmap string pyval)) (n : Z) (F V : list Z)
        (D : list dup_handle) (S : list (list string)) (L : list log_entry).

Lemma new_dict_run d :
  new_dict d (World H n F V D S L)
  = (Ret (fresh (dom H)), World (<[fresh (dom H) := d]> H) n F V D S L).
Proof. reflexivity. Qed.

Lemma dict_copy_run l d :
  H !! l = Some d →
  dict_copy l (World H n F V D S L)
  = (Ret (fresh (dom H)), World (<[fresh (dom H) := d]> H) n F V D S L).
Proof. intros Hl. unfold dict_copy, deref. simpl. rewrite Hl. reflexivity. Qed.

Lemma setitem_top a K k v :
  setitem a k v (World (<[a := K]> H) n F V D S L)
  = (Ret tt, World (<[a := <[k := v]> K]> H) n F V D S L).
Proof.
  unfold setitem, deref, set_heap. simpl.
  rewrite lookup_insert_eq, insert_insert_eq. reflexivity.
Qed.

Lemma setitem_under a e K E k v :
  a ≠ e →
  setitem e k v (World (<[a := K]> (<[e := E]> H)) n F V D S L)
  = (Ret tt, World (<[a := K]> (<[e := <[k := v]> E]> H)) n F V D S L).
Proof.
  intros Hne. unfold setitem, deref, set_heap. simpl.
  rewrite lookup_insert_ne, lookup_insert_eq by done.
  rewrite (insert_insert_ne _ e a) by done. rewrite insert_insert_eq.
  reflexivity.
Qed.

Lemma getitem_under a e K E k v :
  a ≠ e → E !! k = Some v →
  getitem e k (World (<[a := K]> (<[e := E]> H)) n F V D S L)
  = (Ret v, World (<[a := K]> (<[e := E]> H)) n F V D S L).
Proof.
  intros Hne Hk. unfold getitem, deref. simpl.
  rewrite lookup_insert_ne, lookup_insert_eq by done. simpl.
  rewrite Hk. reflexivity.
Qed.

Lemma dict_update_top a K other :
  dict_update a other (World (<[a := K]> H) n F V D S L)
  = (Ret tt, World (<[a := other ∪ K]> H) n F V D S L).
Proof.
  unfold dict_update, deref, set_heap. simpl.
  rewrite lookup_insert_eq, insert_insert_eq. reflexivity.
Qed.

Lemma setdefault_top_Some a K k dflt v :
  K !! k = Some v →
  setdefault a k dflt (World (<[a := K]> H) n F V D S L)
  = (Ret v, World (<[a := K]> H) n F V D S L).
Proof.
  intros Hk. unfold setdefault, deref. simpl.
  rewrite lookup_insert_eq. simpl. rewrite Hk. reflexivity.
Qed.

Lemma setdefault_top_None a K k dflt :
  K !! k = None →
  setdefault a k dflt (World (<[a := K]> H) n F V D S L)
  = (Ret dflt, World (<[a := <[k := dflt]> K]> H) n F V D S L).
Proof.
  intros Hk. unfold setdefault, deref, set_heap. simpl.
  rewrite lookup_insert_eq. simpl. rewrite Hk, insert_insert_eq. reflexivity.
Qed.

Lemma truthy_run v :
  ∃ b, truthy v (World H n F V D S L) = (Ret b, World H n F V D S L).
Proof. unfold truthy. eauto. Qed.

Lemma open_devnull_run :
  open_devnull (World H n F V D S L)
  = (Ret (VFile n), World H (n + 1) (n :: F) V D S L).
Proof. reflexivity. Qed.

Lemma create_interrupt_event_run :
  create_interrupt_event (World H n F V D S L)
  = (Ret n, World H (n + 1) F (n :: V) D S L).
Proof. reflexivity. Qed.

Lemma DuplicateHandle_run sp s tp acc inh opt :
  DuplicateHandle sp s tp acc inh opt (World H n F V D S L)
  = (Ret n, World H (n + 1) F V (DupHandle s tp inh opt n :: D) S L).
Proof. reflexivity. Qed.

End Dicts.

(** ** What [prepare_process_args] computes *)

Lemma prepare_process_args_run stdin stdout stderr env independent cwd kw w :
  live (default (environ sys) env) w →
  (win32 = true → windowed = true → independent = false → flags_ok kw = true) →
  ∃ kwargs le w',
    prepare_process_args stdin stdout stderr env independent cwd kw w
      = (Ret (kwargs, if win32 then Some (event_handle w) else None), w')
    ∧ prepared stdin stdout stderr env independent cwd kw w kwargs le
               (if win32 then Some (event_handle w) else None) w'.
Proof.
  intros [E0 HE0] Hflags. destruct w as [H n F V D S L]. simpl in HE0.
  unfold prepare_process_args. cbv zeta. fold windowed.
  set (lk := fresh (dom H)).
  assert (Hlk : H !! lk = None).
  { apply not_elem_of_dom. apply is_fresh. }
  set (H1 := <[lk := kw]> H).
  set (le := match env with Some l => l | None => fresh (dom H1) end).
  assert (Hle_lk : le ≠ lk).
  { subst le. destruct env as [l|]; simpl in *.
    - intros ->. congruence.
    - intros Heq. pose proof (is_fresh (dom H1)) as Hf. rewrite Heq in Hf.
      apply Hf. subst H1. rewrite dom_insert_L. set_solver. }
  assert (HE0' : H1 !! default (environ sys) env = Some E0).
  { subst H1. rewrite lookup_insert_ne; [done|]. intros Heq. congruence. }
  set (H2 := <[le := E0]> H1).
  set (lkw := fresh (dom H2)).
  assert (Hlkw : H2 !! lkw = None).
  { apply not_elem_of_dom. apply is_fresh. }
  assert (Hlkw_le : lkw ≠ le).
  { intros Heq. subst H2. rewrite Heq, lookup_insert_eq in Hlkw. done. }
  assert (Hlkw_lk : lkw ≠ lk).
  { intros Heq. subst H2 H1. rewrite Heq in Hlkw.
    rewrite lookup_insert_ne, lookup_insert_eq in Hlkw by done. done. }
  assert (Hlkw_H : H !! lkw = None).
  { subst H2 H1. rewrite !lookup_insert_ne in Hlkw by done. done. }
  set (n1 := if windowed then n + 1 else n).
  set (F1 := if windowed then n :: F else F).
  set (so := if windowed then (if is_None stdout then VFile n else stdout) else stdout).
  set (se := if windowed then (if is_None stderr then VFile n else stderr) else stderr).
  exists lkw, le.
  set (K0 := <["stdin" := if is_None stdin then PIPE else stdin]>
               (<["stdout" := so]> (<["stderr" := se]>
                  (<["cwd" := cwd]> (<["env" := VDict le]> ∅)))) ∪ kw).
  unfold event_handle. simpl next_handle. fold n1.
  destruct (win32) eqn:Hwin;
    (eexists; split;
     [ eapply bind_run; [apply new_dict_run|]; cbv beta; fold lk H1;
       eapply (bind_run _ _ _ (so, se) (World H1 n1 F1 V D S L));
       [ subst so se n1 F1; destruct windowed; [|reflexivity];
         eapply bind_run; [apply open_devnull_run|]; reflexivity |];
       cbv beta iota;
       eapply (bind_run _ _ _ le (World H2 n1 F1 V D S L));
       [ subst le H2; destruct env as [l|]; simpl in *;
         [ rewrite insert_id by done; reflexivity
         | apply dict_copy_run; done ] |];
       cbv beta;
       eapply bind_run;
       [ apply (dict_copy_run _ _ _ _ _ _ _ lk kw);
         subst H2 H1; rewrite lookup_insert_ne, lookup_insert_eq by done; done |];
       cbv beta; fold lkw;
       eapply bind_run; [apply dict_update_top|]; cbv beta; fold K0; subst H2
     | ]).
  - (* win32 *)
    destruct (truthy_run (<[lkw := K0]> (<[le := E0]> H1)) n1 F1 V D S L cwd)
      as [c Hc].
    eapply bind_run.
    { eapply bind_run; [exact Hc|]. cbv beta.
      eapply (bind_run _ _ _ tt (World (<[lkw := K0]> (<[le := E0]> H1)) n1 F1 V D S L)).
      { destruct c; [|apply ret_run].
        rewrite setitem_top. rewrite (insert_id K0); [done|].
        subst K0. apply lookup_union_Some_l.
        rewrite !lookup_insert_ne by done. apply lookup_insert_eq. }
      cbv beta.
      eapply bind_run; [apply create_interrupt_event_run|]. cbv beta.
      eapply bind_run; [apply setitem_under; done|]. cbv beta.
      eapply bind_run; [apply getitem_under; [done|apply lookup_insert_eq]|]. cbv beta.
      eapply bind_run; [apply setitem_under; done|]. cbv beta.
      set (E1 := <["IPY_INTERRUPT_EVENT" := VStr (pretty n1)]>
                   (<["JPY_INTERRUPT_EVENT" := VStr (pretty n1)]> E0)).
      set (K1 := if independent
                 then <["creationflags" := VInt CREATE_NEW_PROCESS_GROUP]> K0
                 else K0).
      set (E2 := if independent then E1
                 else <["JPY_PARENT_PID" := VStr (pretty (n1 + 1))]> E1).
      eapply (bind_run _ _ _ tt
                (World (<[lkw := K1]> (<[le := E2]> H1))
                       (if independent then n1 + 1 else n1 + 1 + 1) F1 (n1 :: V)
                       (if independent then D
                        else DupHandle current_process_handle current_process_handle true DUPLICATE_SAME_ACCESS (n1 + 1) :: D)
                       S L)).
      { subst K1 E2. destruct independent.
        - apply setitem_top.
        - eapply bind_run; [apply ret_run|]. cbv beta.
          eapply bind_run; [apply DuplicateHandle_run|]. cbv beta.
          apply setitem_under. done. }
      cbv beta.
      set (K2 := if windowed
                 then <["creationflags" :=
                          VInt (Z.lor (flags_of (K1 !! "creationflags")) CREATE_NO_WINDOW)]> K1
                 else K1).
      eapply (bind_run _ _ _ tt
                (World (<[lkw := K2]> (<[le := E2]> H1))
                       (if independent then n1 + 1 else n1 + 1 + 1) F1 (n1 :: V)
                       (if independent then D
                        else DupHandle current_process_handle current_process_handle true DUPLICATE_SAME_ACCESS (n1 + 1) :: D)
                       S L)).
      { subst K2. destruct windowed eqn:Hwd; [|apply ret_run].
        destruct (K1 !! "creationflags") as [v|] eqn:Hv.
        - eapply bind_run; [apply setdefault_top_Some; exact Hv|]. cbv beta.
          assert (Hint : ∃ z, py_or v (VInt 134217728) = mret (VInt (Z.lor z 134217728))
                               ∧ flags_of (Some v) = z).
          { subst K1. destruct independent.
            - rewrite lookup_insert_eq in Hv. inversion Hv; subst v.
              eexists; split; reflexivity.
            - specialize (Hflags eq_refl eq_refl eq_refl).
              unfold flags_ok in Hflags.
              assert (Hkw : kw !! "creationflags" = Some v).
              { subst K0. apply lookup_union_Some_raw in Hv as [Hv|[_ Hv]]; [|done].
                rewrite !lookup_insert_ne in Hv by done. done. }
              rewrite Hkw in Hflags.
              destruct v as [|[]| | | |]; try discriminate;
                eexists; split; reflexivity. }
          destruct Hint as (z & Hor & Hz). rewrite Hor.
          eapply bind_run; [apply ret_run|]. cbv beta.
          rewrite setitem_top. rewrite Hz. reflexivity.
        - eapply bind_run; [apply setdefault_top_None; exact Hv|]. cbv beta.
          eapply bind_run; [reflexivity|]. cbv beta.
          rewrite setitem_top, insert_insert_eq. reflexivity. }
      cbv beta.
      eapply bind_run; [apply setitem_top|]. cbv beta.
      apply ret_run. }
    cbv beta. apply ret_run.
  - split; simpl;
      unfold expected_kwargs, child_env, stream_arg, blackhole_handle, event_handle,
        kw_object, deref; simpl; rewrite ?Hwin, ?HE0; simpl; try done.
    + subst le. destruct env as [l|]; [done|].
      pose proof (is_fresh (dom H1)) as Hf. apply not_elem_of_dom in Hf.
      subst H1. apply lookup_insert_None in Hf as [Hf _]. done.
    + destruct independent; reflexivity.
  - (* POSIX *)
    eapply bind_run.
    { eapply bind_run; [apply setitem_top|]. cbv beta.
      eapply (bind_run _ _ _ tt
                (World (<[lkw := <["start_new_session" := VBool true]> K0]>
                          (<[le := if independent then E0
                                   else <["JPY_PARENT_PID" := VStr (pretty (getpid sys))]> E0]>
                             H1)) n1 F1 V D S L)).
      { destruct independent; simpl.
        - apply ret_run.
        - apply setitem_under. done. }
      cbv beta. apply ret_run. }
    cbv beta. apply ret_run.
  - split; simpl;
      unfold expected_kwargs, child_env, stream_arg, blackhole_handle, event_handle,
        kw_object, deref; simpl; rewrite ?Hwin, ?HE0; simpl; try done.
    + subst le. destruct env as [l|]; [done|].
      pose proof (is_fresh (dom H1)) as Hf. apply not_elem_of_dom in Hf.
      subst H1. apply lookup_insert_None in Hf as [Hf _]. done.
Qed.

(** The one way the preparation can fail: under pythonw on win32, without
    [independent], a caller's [creationflags] that is not an integer makes
    the [|] raise.  The discard file has been opened by then. *)
Lemma prepare_process_args_type_error stdin stdout stderr env cwd kw w :
  live (default (environ sys) env) w →
  win32 = true → windowed = true → flags_ok kw = false →
  ∃ w',
    prepare_process_args stdin stdout stderr env false cwd kw w = (Raise TypeError, w')
    ∧ devnull_files w' = next_handle w :: devnull_files w
    ∧ spawned w' = spawned w
    ∧ logged w' = logged w.
Proof.
  intros [E0 HE0] Hwin Hwd Hflags. destruct w as [H n F V D S L]. simpl in HE0.
  unfold prepare_process_args. cbv zeta. fold windowed. rewrite Hwin, Hwd.
  set (lk := fresh (dom H)).
  assert (Hlk : H !! lk = None).
  { apply not_elem_of_dom. apply is_fresh. }
  set (H1 := <[lk := kw]> H).
  set (le := match env with Some l => l | None => fresh (dom H1) end).
  assert (Hle_lk : le ≠ lk).
  { subst le. destruct env as [l|]; simpl in *.
    - intros ->. congruence.
    - intros Heq. pose proof (is_fresh (dom H1)) as Hf. rewrite Heq in Hf.
      apply Hf. subst H1. rewrite dom_insert_L. set_solver. }
  assert (HE0' : H1 !! default (environ sys) env = Some E0).
  { subst H1. rewrite lookup_insert_ne; [done|]. intros Heq. congruence. }
  set (H2 := <[le := E0]> H1).
  set (lkw := fresh (dom H2)).
  assert (Hlkw_le : lkw ≠ le).
  { intros Heq. pose proof (is_fresh (dom H2)) as Hf. apply not_elem_of_dom in Hf.
    fold lkw in Hf. subst H2. rewrite Heq, lookup_insert_eq in Hf. done. }
  set (so := if is_None stdout then VFile n else stdout).
  set (se := if is_None stderr then VFile n else stderr).
  set (K0 := <["stdin" := if is_None stdin then PIPE else stdin]>
               (<["stdout" := so]> (<["stderr" := se]>
                  (<["cwd" := cwd]> (<["env" := VDict le]> ∅)))) ∪ kw).
  assert (HK0 : K0 !! "creationflags" = kw !! "creationflags").
  { subst K0. rewrite lookup_union_r; [done|].
    rewrite !lookup_insert_ne by done. apply lookup_empty. }
  eexists. split.
  { eapply bind_run; [apply new_dict_run|]. cbv beta. fold lk H1.
  eapply (bind_run _ _ _ (so, se) (World H1 (n + 1) (n :: F) V D S L)).
  { eapply bind_run; [apply open_devnull_run|]. reflexivity. }
  cbv beta iota.
  eapply (bind_run _ _ _ le (World H2 (n + 1) (n :: F) V D S L)).
  { subst le H2. destruct env as [l|]; simpl in *.
    - rewrite insert_id by done. reflexivity.
    - apply dict_copy_run. done. }
  cbv beta.
  eapply bind_run.
  { apply (dict_copy_run _ _ _ _ _ _ _ lk kw).
    subst H2 H1. rewrite lookup_insert_ne, lookup_insert_eq by done. done. }
  cbv beta. fold lkw.
  eapply bind_run; [apply dict_update_top|]. cbv beta. fold K0. subst H2.
  apply bind_raise.
  destruct (truthy_run (<[lkw := K0]> (<[le := E0]> H1)) (n + 1) (n :: F) V D S L cwd)
    as [c Hc].
  eapply bind_run; [exact Hc|]. cbv beta.
  eapply (bind_run _ _ _ tt
            (World (<[lkw := K0]> (<[le := E0]> H1)) (n + 1) (n :: F) V D S L)).
  { destruct c; [|apply ret_run].
    rewrite setitem_top. rewrite (insert_id K0); [done|].
    subst K0. apply lookup_union_Some_l.
    rewrite !lookup_insert_ne by done. apply lookup_insert_eq. }
  cbv beta.
  eapply bind_run; [apply create_interrupt_event_run|]. cbv beta.
  eapply bind_run; [apply setitem_under; done|]. cbv beta.
  eapply bind_run; [apply getitem_under; [done|apply lookup_insert_eq]|]. cbv beta.
  eapply bind_run; [apply setitem_under; done|]. cbv beta.
  eapply bind_run.
  { eapply bind_run; [apply ret_run|]. cbv beta.
    eapply bind_run; [apply DuplicateHandle_run|]. cbv beta.
    apply setitem_under. done. }
  cbv beta.
  apply bind_raise.
  unfold flags_ok in Hflags. rewrite <- HK0 in Hflags.
  destruct (K0 !! "creationflags") as [v|] eqn:Hv; [|discriminate].
  eapply bind_run; [apply setdefault_top_Some; exact Hv|]. cbv beta.
  apply bind_raise.
  destruct v; try discriminate; reflexivity. }
  repeat split; reflexivity.
Qed.

(** ** Reading the prepared world *)

Section Prepared.
Context {stdin stdout stderr : pyval} {env : option loc} {independent : bool}
        {cwd : pyval} {kw : gmap string pyval} {w : world}
        {kwargs le : loc} {ev : option Z} {w' : world}
        (P : prepared stdin stdout stderr env independent cwd kw w kwargs le ev w').

Lemma prepared_kwargs :
  deref kwargs w' = expected_kwargs stdin stdout stderr le independent cwd kw w.
Proof. destruct P as [Hh _ _ _ _ _ _ _ _ _ _ _]. unfold deref. rewrite Hh, lookup_insert_eq. done. Qed.

Lemma prepared_env :
  deref le w' = child_env independent w (deref (default (environ sys) env) w).
Proof.
  destruct P as [Hh _ Hne _ _ _ _ _ _ _ _ _].
  unfold deref at 1. rewrite Hh.
  rewrite lookup_insert_ne by done. rewrite lookup_insert_eq. done.
Qed.

Lemma prepared_kw : heap w' !! kw_object w = Some kw.
Proof.
  destruct P as [Hh _ _ Hne1 Hne2 _ _ _ _ _ _ _].
  rewrite Hh. rewrite !lookup_insert_ne by done.
  apply lookup_insert_eq.
Qed.

(** Every dict that existed before the call, the environment apart, is
    left as it was. *)
Lemma prepared_frame l :
  is_Some (heap w !! l) → l ≠ le → heap w' !! l = heap w !! l.
Proof.
  destruct P as [Hh Hf _ _ _ _ _ _ _ _ _ _].
  intros [d Hd] Hne. rewrite Hh.
  rewrite lookup_insert_ne by (intros <-; congruence).
  rewrite lookup_insert_ne by done.
  rewrite lookup_insert_ne; [done|].
  intros <-. unfold kw_object in Hd.
  pose proof (is_fresh (dom (heap w))) as Hfr. apply not_elem_of_dom in Hfr.
  congruence.
Qed.
End Prepared.

Lemma land_lor_absorb (x c : Z) : Z.land (Z.lor x c) c = c.
Proof.
  apply Z.bits_inj'. intros i _. rewrite Z.land_spec, Z.lor_spec.
  destruct (Z.testbit x i), (Z.testbit c i); reflexivity.
Qed.

(** ** The entries of the spawn arguments *)

Section Kwargs.
Context (stdin stdout stderr : pyval) (le : loc) (independent : bool)
        (cwd : pyval) (kw : gmap string pyval) (w : world).
Abbreviation K := (expected_kwargs stdin stdout stderr le independent cwd kw w).

Lemma kwargs_stdin : K !! "stdin" = Some (if is_None stdin then PIPE else stdin).
Proof.
  unfold expected_kwargs. destruct win32, independent, windowed;
    rewrite ?lookup_insert_ne by done; apply lookup_union_Some_l;
    apply lookup_insert_eq.
Qed.

Lemma kwargs_stdout : K !! "stdout" = Some (stream_arg stdout w).
Proof.
  unfold expected_kwargs. destruct win32, independent, windowed;
    rewrite ?lookup_insert_ne by done; apply lookup_union_Some_l;
    rewrite ?lookup_insert_ne by done; apply lookup_insert_eq.
Qed.

Lemma kwargs_stderr : K !! "stderr" = Some (stream_arg stderr w).
Proof.
  unfold expected_kwargs. destruct win32, independent, windowed;
    rewrite ?lookup_insert_ne by done; apply lookup_union_Some_l;
    rewrite ?lookup_insert_ne by done; apply lookup_insert_eq.
Qed.

Lemma kwargs_cwd : K !! "cwd" = Some cwd.
Proof.
  unfold expected_kwargs. destruct win32, independent, windowed;
    rewrite ?lookup_insert_ne by done; apply lookup_union_Some_l;
    rewrite ?lookup_insert_ne by done; apply lookup_insert_eq.
Qed.

Lemma kwargs_env : K !! "env" = Some (VDict le).
Proof.
  unfold expected_kwargs. destruct win32, independent, windowed;
    rewrite ?lookup_insert_ne by done; apply lookup_union_Some_l;
    rewrite ?lookup_insert_ne by done; apply lookup_insert_eq.
Qed.

Lemma kwargs_start_new_session :
  win32 = false → K !! "start_new_session" = Some (VBool true).
Proof. intros Hw. unfold expected_kwargs. rewrite Hw. apply lookup_insert_eq. Qed.

Lemma kwargs_close_fds : win32 = true → K !! "close_fds" = Some (VBool false).
Proof. intros Hw. unfold expected_kwargs. rewrite Hw. apply lookup_insert_eq. Qed.

Lemma kwargs_new_process_group :
  win32 = true → independent = true →
  ∃ f, K !! "creationflags" = Some (VInt f)
       ∧ Z.land f CREATE_NEW_PROCESS_GROUP = CREATE_NEW_PROCESS_GROUP.
Proof.
  intros Hw Hi. unfold expected_kwargs. rewrite Hw, Hi. cbv zeta.
  rewrite lookup_insert_ne by done. destruct windowed.
  - rewrite !lookup_insert_eq. eexists. split; [reflexivity|].
    simpl flags_of. reflexivity.
  - rewrite lookup_insert_eq. eexists. split; reflexivity.
Qed.

Lemma kwargs_no_window :
  win32 = true → windowed = true →
  ∃ f, K !! "creationflags" = Some (VInt f)
       ∧ Z.land f CREATE_NO_WINDOW = CREATE_NO_WINDOW.
Proof.
  intros Hw Hwd. unfold expected_kwargs. rewrite Hw, Hwd. cbv zeta.
  rewrite lookup_insert_ne by done. rewrite lookup_insert_eq.
  eexists. split; [reflexivity|].
  apply land_lor_absorb.
Qed.

Lemma kwargs_other k : k ∉ written_keys → K !! k = kw !! k.
Proof.
  intros Hk. unfold written_keys in Hk.
  repeat (apply not_elem_of_cons in Hk as [? Hk]).
  unfold expected_kwargs.
  assert (Hm : ∀ a b c d e : pyval,
    (<["stdin" := a]> (<["stdout" := b]> (<["stderr" := c]>
       (<["cwd" := d]> (<["env" := e]> ∅)))) ∪ kw) !! k = kw !! k).
  { intros. rewrite lookup_union_r; [done|].
    rewrite !lookup_insert_ne by done. apply lookup_empty. }
  destruct win32, independent, windowed; cbv zeta;
    rewrite ?lookup_insert_ne by done; apply Hm.
Qed.
End Kwargs.

(** ** Running the launch once the arguments are prepared *)

Lemma finish_new_proc pid K stdin ev w :
  K !! "stdin" = Some (if is_None stdin then PIPE else stdin) →
  finish_process_launch (new_proc pid K) stdin ev w
  = (Ret (Proc pid
               (if is_None stdin then Some true else proc_stdin (new_proc pid K))
               (if win32 then Some ev else None)), w).
Proof.
  intros HK. unfold finish_process_launch, new_proc.
  destruct win32; (eapply bind_run; [apply ret_run|]); cbv beta;
    destruct (is_None stdin) eqn:Hs; simpl; rewrite ?HK;
    rewrite ?bool_decide_eq_true_2 by done; reflexivity.
Qed.

Section Launch.
Context (cmd : list string) (stdin stdout stderr : pyval) (env : option loc)
        (independent : bool) (cwd : pyval) (kw : gmap string pyval)
        (w : world) (kwargs : loc) (ev : option Z) (w1 : world).
Hypothesis Hprep :
  prepare_process_args stdin stdout stderr env independent cwd kw w
  = (Ret (kwargs, ev), w1).

Lemma launch_kernel_spawned pid :
  popen_outcome (expanduser <$> cmd) (deref kwargs w1) w1 = inr pid →
  launch_kernel cmd stdin stdout stderr env independent cwd kw w
  = finish_process_launch (new_proc pid (deref kwargs w1)) stdin ev
      (record_spawn (expanduser <$> cmd) w1).
Proof.
  intros Hspawn. unfold launch_kernel.
  eapply bind_run; [exact Hprep|]. cbv beta iota zeta.
  unfold mbind at 1. unfold M_bind, try_except.
  unfold mbind at 1. unfold M_bind, dict_items, Popen. rewrite Hspawn.
  unfold mbind, M_bind.
  destruct (finish_process_launch _ _ _ _) as [[p|e] w2]; reflexivity.
Qed.


Lemma launch_kernel_spawn_failed_env l e :
  env = Some l →
  popen_outcome (expanduser <$> cmd) (deref kwargs w1) w1 = inl e →
  is_Exception e = true →
  launch_kernel cmd stdin stdout stderr env independent cwd kw w
  = (Raise e,
     World (heap w1) (next_handle w1) (devnull_files w1) (events w1) (duplicated w1)
           ((expanduser <$> cmd) :: spawned w1)
           (LogEntry (expanduser <$> cmd)
                     (default (VStr (defpath sys)) (deref l w1 !! "PATH"))
                     (without_env (deref kwargs w1)) :: logged w1)).
Proof.
  intros -> Hspawn He. unfold launch_kernel.
  eapply bind_run; [exact Hprep|]. cbv beta iota zeta.
  unfold mbind at 1. unfold M_bind, try_except.
  unfold mbind at 1. unfold M_bind, dict_items, Popen. rewrite Hspawn, He.
  reflexivity.
Qed.

Lemma launch_kernel_spawn_failed_no_env e :
  env = None →
  popen_outcome (expanduser <$> cmd) (deref kwargs w1) w1 = inl e →
  is_Exception e = true →
  launch_kernel cmd stdin stdout stderr env independent cwd kw w
  = (Raise AttributeError, record_spawn (expanduser <$> cmd) w1).
Proof.
  intros -> Hspawn He. unfold launch_kernel.
  eapply bind_run; [exact Hprep|]. cbv beta iota zeta.
  unfold mbind at 1. unfold M_bind, try_except.
  unfold mbind at 1. unfold M_bind, dict_items, Popen. rewrite Hspawn, He.
  reflexivity.
Qed.
End Launch.

(** ** Properties of the launcher *)

Lemma win32_true : platform sys = "win32" → win32 = true.
Proof. intros Hp. unfold win32. apply bool_decide_eq_true_2. exact Hp. Qed.

Lemma win32_false : platform sys ≠ "win32" → win32 = false.
Proof. intros Hp. unfold win32. apply bool_decide_eq_false_2. exact Hp. Qed.

(** With a live environment and an integer [creationflags] (or none) the
    preparation returns, in the state described by [prepared]. *)
Lemma prepare_process_args_ok stdin stdout stderr env independent cwd kw w :
  live (default (environ sys) env) w →
  flags_ok kw = true →
  ∃ kwargs le w',
    prepare_process_args stdin stdout stderr env independent cwd kw w
      = (Ret (kwargs, if win32 then Some (event_handle w) else None), w')
    ∧ prepared stdin stdout stderr env independent cwd kw w kwargs le
               (if win32 then Some (event_handle w) else None) w'.
Proof. intros Hl Hf. apply prepare_process_args_run; auto. Qed.

(** On POSIX no hypothesis on [creationflags] is needed. *)
Lemma prepare_process_args_posix stdin stdout stderr env independent cwd kw w :
  win32 = false →
  live (default (environ sys) env) w →
  ∃ kwargs le w',
    prepare_process_args stdin stdout stderr env independent cwd kw w
      = (Ret (kwargs, None), w')
    ∧ prepared stdin stdout stderr env independent cwd kw w kwargs le None w'.
Proof.
  intros Hw Hl.
  destruct (prepare_process_args_run stdin stdout stderr env independent cwd kw w Hl)
    as (kwargs & le & w' & Hrun & P).
  { rewrite Hw. discriminate. }
  rewrite Hw in Hrun, P. eauto.
Qed.

(** C4.  On a POSIX platform the spawn arguments always ask for a new
    session, whatever [independent] is, and the pid of the current process
    is written to the child environment under JPY_PARENT_PID exactly when
    [independent] is false: with [independent] the child environment is the
    source environment, unchanged. *)
Theorem posix_new_session_and_parent_pid stdin stdout stderr env independent cwd kw w :
  platform sys ≠ "win32" →
  live (default (environ sys) env) w →
  ∃ kwargs le w',
    prepare_process_args stdin stdout stderr env independent cwd kw w
      = (Ret (kwargs, None), w')
    ∧ deref kwargs w' !! "start_new_session" = Some (VBool true)
    ∧ deref kwargs w' !! "env" = Some (VDict le)
    ∧ deref le w' =
        if independent then deref (default (environ sys) env) w
        else <["JPY_PARENT_PID" := VStr (pretty (getpid sys))]>
               (deref (default (environ sys) env) w).
Proof.
  intros Hp%win32_false Hl.
  destruct (prepare_process_args_posix stdin stdout stderr env independent cwd kw w Hp Hl)
    as (kwargs & le & w' & Hrun & P).
  exists kwargs, le, w'. split; [exact Hrun|].
  rewrite (prepared_kwargs P), (prepared_env P).
  split; [apply kwargs_start_new_session; exact Hp|].
  split; [apply kwargs_env|].
  unfold child_env. rewrite Hp. reflexivity.
Qed.

(** C5.  On win32, with [independent] the creation flags carry
    CREATE_NEW_PROCESS_GROUP, no handle is duplicated and JPY_PARENT_PID is
    left as the source environment had it; without [independent] an
    inheritable duplicate of the current process handle is made and its
    number is written to the child environment under JPY_PARENT_PID. *)
Theorem win32_process_group_or_parent_handle
    stdin stdout stderr env independent cwd kw w :
  platform sys = "win32" →
  live (default (environ sys) env) w →
  flags_ok kw = true →
  ∃ kwargs le ev w',
    prepare_process_args stdin stdout stderr env independent cwd kw w
      = (Ret (kwargs, ev), w')
    ∧ deref kwargs w' !! "env" = Some (VDict le)
    ∧ if independent then
        (∃ f, deref kwargs w' !! "creationflags" = Some (VInt f)
              ∧ Z.land f CREATE_NEW_PROCESS_GROUP = CREATE_NEW_PROCESS_GROUP)
        ∧ duplicated w' = duplicated w
        ∧ deref le w' !! "JPY_PARENT_PID"
          = deref (default (environ sys) env) w !! "JPY_PARENT_PID"
      else
        ∃ h, duplicated w'
             = DupHandle current_process_handle current_process_handle true
                         DUPLICATE_SAME_ACCESS h :: duplicated w
             ∧ deref le w' !! "JPY_PARENT_PID" = Some (VStr (pretty h)).
Proof.
  intros Hp%win32_true Hl Hf.
  destruct (prepare_process_args_ok stdin stdout stderr env independent cwd kw w Hl Hf)
    as (kwargs & le & w' & Hrun & P).
  eexists kwargs, le, _, w'. split; [exact Hrun|].
  rewrite (prepared_kwargs P), (prepared_env P).
  split; [apply kwargs_env|].
  pose proof (prep_dups _ _ _ _ _ _ _ _ _ _ _ _ P) as Hd.
  rewrite Hp in Hd. unfold child_env. rewrite Hp.
  destruct independent; simpl in Hd |- *.
  - split; [apply kwargs_new_process_group; done|].
    split; [exact Hd|].
    rewrite !lookup_insert_ne by done. reflexivity.
  - eexists. split; [exact Hd|]. apply lookup_insert_eq.
Qed.

(** C6.  On win32 an interrupt event is created, its handle is written to
    the child environment under JPY_INTERRUPT_EVENT and, with the same
    value, under the old name IPY_INTERRUPT_EVENT, and when the spawn
    succeeds the process object returned by [launch_kernel] carries that
    handle as [win32_interrupt_event]. *)
Theorem win32_interrupt_event_injected_and_attached
    cmd stdin stdout stderr env independent cwd kw w :
  platform sys = "win32" →
  live (default (environ sys) env) w →
  flags_ok kw = true →
  ∃ kwargs le h w',
    prepare_process_args stdin stdout stderr env independent cwd kw w
      = (Ret (kwargs, Some h), w')
    ∧ events w' = h :: events w
    ∧ deref kwargs w' !! "env" = Some (VDict le)
    ∧ deref le w' !! "JPY_INTERRUPT_EVENT" = Some (VStr (pretty h))
    ∧ deref le w' !! "IPY_INTERRUPT_EVENT" = Some (VStr (pretty h))
    ∧ ∀ pid,
        popen_outcome (expanduser <$> cmd) (deref kwargs w') w' = inr pid →
        ∃ p w'',
          launch_kernel cmd stdin stdout stderr env independent cwd kw w = (Ret p, w'')
          ∧ win32_interrupt_event p = Some (Some h).
Proof.
  intros Hp%win32_true Hl Hf.
  destruct (prepare_process_args_ok stdin stdout stderr env independent cwd kw w Hl Hf)
    as (kwargs & le & w' & Hrun & P).
  rewrite Hp in Hrun, P.
  exists kwargs, le, (event_handle w), w'. split; [exact Hrun|].
  split.
  { rewrite (prep_events _ _ _ _ _ _ _ _ _ _ _ _ P), Hp. reflexivity. }
  split; [rewrite (prepared_kwargs P); apply kwargs_env|].
  rewrite (prepared_env P). unfold child_env. rewrite Hp. cbv zeta.
  split.
  { destruct independent; rewrite !lookup_insert_ne by done; apply lookup_insert_eq. }
  split.
  { destruct independent; rewrite ?lookup_insert_ne by done; apply lookup_insert_eq. }
  intros pid Hspawn.
  rewrite (launch_kernel_spawned cmd _ _ _ _ _ _ _ _ _ _ _ Hrun pid Hspawn).
  rewrite finish_new_proc.
  2:{ rewrite (prepared_kwargs P). apply kwargs_stdin. }
  rewrite Hp. eexists _, _. split; reflexivity.
Qed.

(** C3.  The [stdin] argument of the spawn is [PIPE] when the caller gave
    no stdin and the caller's stream otherwise.  After a successful spawn,
    [launch_kernel] returns the process with that pipe closed in the first
    case, and with its [stdin] attribute as the spawn made it in the
    second. *)
Theorem stdin_pipe_substituted_and_closed
    cmd stdin stdout stderr env independent cwd kw w :
  live (default (environ sys) env) w →
  flags_ok kw = true →
  ∃ kwargs ev w',
    prepare_process_args stdin stdout stderr env independent cwd kw w
      = (Ret (kwargs, ev), w')
    ∧ (stdin = VNone → deref kwargs w' !! "stdin" = Some PIPE)
    ∧ (stdin ≠ VNone → deref kwargs w' !! "stdin" = Some stdin)
    ∧ ∀ pid,
        popen_outcome (expanduser <$> cmd) (deref kwargs w') w' = inr pid →
        ∃ p w'',
          launch_kernel cmd stdin stdout stderr env independent cwd kw w = (Ret p, w'')
          ∧ (stdin = VNone → proc_stdin p = Some true)
          ∧ (stdin ≠ VNone →
             proc_stdin p = proc_stdin (new_proc pid (deref kwargs w'))).
Proof.
  intros Hl Hf.
  destruct (prepare_process_args_ok stdin stdout stderr env independent cwd kw w Hl Hf)
    as (kwargs & le & w' & Hrun & P).
  eexists kwargs, _, w'. split; [exact Hrun|].
  pose proof (kwargs_stdin stdin stdout stderr le independent cwd kw w) as Hs.
  rewrite <- (prepared_kwargs P) in Hs.
  split; [intros ->; exact Hs|].
  split.
  { intros Hne. rewrite Hs. destruct stdin; done. }
  intros pid Hspawn.
  rewrite (launch_kernel_spawned cmd _ _ _ _ _ _ _ _ _ _ _ Hrun pid Hspawn).
  rewrite (finish_new_proc _ _ _ _ _ Hs).
  eexists _, _. split; [reflexivity|]. simpl.
  split; [intros ->; reflexivity|].
  intros Hne. destruct stdin; done.
Qed.

(** C7.  Under the windowed interpreter (pythonw) stdout and stderr are each
    replaced by the file opened on os.devnull exactly when the caller gave
    None for them, and on win32 the creation flags then carry
    CREATE_NO_WINDOW; under any other interpreter stdout and stderr are
    passed on as the caller gave them. *)
Theorem windowed_streams_redirected stdin stdout stderr env independent cwd kw w :
  live (default (environ sys) env) w →
  flags_ok kw = true →
  ∃ kwargs ev w',
    prepare_process_args stdin stdout stderr env independent cwd kw w
      = (Ret (kwargs, ev), w')
    ∧ (windowed = true →
         devnull_files w' = next_handle w :: devnull_files w
         ∧ deref kwargs w' !! "stdout"
           = Some (if is_None stdout then VFile (next_handle w) else stdout)
         ∧ deref kwargs w' !! "stderr"
           = Some (if is_None stderr then VFile (next_handle w) else stderr)
         ∧ (platform sys = "win32" →
            ∃ f, deref kwargs w' !! "creationflags" = Some (VInt f)
                 ∧ Z.land f CREATE_NO_WINDOW = CREATE_NO_WINDOW))
    ∧ (windowed = false →
         devnull_files w' = devnull_files w
         ∧ deref kwargs w' !! "stdout" = Some stdout
         ∧ deref kwargs w' !! "stderr" = Some stderr).
Proof.
  intros Hl Hf.
  destruct (prepare_process_args_ok stdin stdout stderr env independent cwd kw w Hl Hf)
    as (kwargs & le & w' & Hrun & P).
  eexists kwargs, _, w'. split; [exact Hrun|].
  rewrite (prepared_kwargs P), (prep_files _ _ _ _ _ _ _ _ _ _ _ _ P).
  rewrite kwargs_stdout, kwargs_stderr. unfold stream_arg, blackhole_handle.
  split; intros Hwd; rewrite Hwd.
  - repeat split; try reflexivity.
    intros Hp%win32_true. apply kwargs_no_window; done.
  - repeat split; reflexivity.
Qed.

(** C9.  The dict bound to the parameter [**kw] still has the caller's
    entries when the function returns: the spawn arguments are another
    object.  In the spawn arguments the entries stdin, stdout, stderr, cwd
    and env hold the computed values whatever [kw] holds under these names,
    and every key the function does not write holds what [kw] holds. *)
Theorem kw_copied_and_main_args_override stdin stdout stderr env independent cwd kw w :
  live (default (environ sys) env) w →
  flags_ok kw = true →
  ∃ kwargs le ev w',
    prepare_process_args stdin stdout stderr env independent cwd kw w
      = (Ret (kwargs, ev), w')
    ∧ kwargs ≠ kw_object w
    ∧ heap w' !! kw_object w = Some kw
    ∧ deref kwargs w' !! "stdin" = Some (if is_None stdin then PIPE else stdin)
    ∧ deref kwargs w' !! "stdout" = Some (stream_arg stdout w)
    ∧ deref kwargs w' !! "stderr" = Some (stream_arg stderr w)
    ∧ deref kwargs w' !! "cwd" = Some cwd
    ∧ deref kwargs w' !! "env" = Some (VDict le)
    ∧ ∀ k, k ∉ written_keys → deref kwargs w' !! k = kw !! k.
Proof.
  intros Hl Hf.
  destruct (prepare_process_args_ok stdin stdout stderr env independent cwd kw w Hl Hf)
    as (kwargs & le & w' & Hrun & P).
  eexists kwargs, le, _, w'. split; [exact Hrun|].
  split; [exact (prep_kwargs_ne_kw _ _ _ _ _ _ _ _ _ _ _ _ P)|].
  split; [exact (prepared_kw P)|].
  rewrite (prepared_kwargs P).
  split; [apply kwargs_stdin|]. split; [apply kwargs_stdout|].
  split; [apply kwargs_stderr|]. split; [apply kwargs_cwd|].
  split; [apply kwargs_env|]. apply kwargs_other.
Qed.

(** Under pythonw the file on os.devnull is opened on every call, also on
    the one that raises. *)
Lemma prepare_opens_devnull stdin stdout stderr env independent cwd kw w :
  windowed = true →
  live (default (environ sys) env) w →
  devnull_files
    (prepare_process_args stdin stdout stderr env independent cwd kw w).2
  = next_handle w :: devnull_files w.
Proof.
  intros Hwd Hl.
  destruct (decide (win32 = true ∧ independent = false ∧ flags_ok kw = false))
    as [(Hw & -> & Hf)|Hn].
  - destruct (prepare_process_args_type_error stdin stdout stderr env cwd kw w
                Hl Hw Hwd Hf) as (w' & -> & Hd & _).
    exact Hd.
  - destruct (prepare_process_args_run stdin stdout stderr env independent cwd kw w Hl)
      as (kwargs & le & w' & -> & P).
    { intros Hw _ Hi. destruct (flags_ok kw) eqn:Hf; [done|]. destruct Hn. done. }
    simpl. rewrite (prep_files _ _ _ _ _ _ _ _ _ _ _ _ P), Hwd. reflexivity.
Qed.

(** Nothing in the launch after the preparation opens or closes a file on
    os.devnull. *)
Lemma launch_kernel_keeps_devnull cmd stdin stdout stderr env independent cwd kw w :
  devnull_files (launch_kernel cmd stdin stdout stderr env independent cwd kw w).2
  = devnull_files
      (prepare_process_args stdin stdout stderr env independent cwd kw w).2.
Proof.
  unfold launch_kernel. unfold mbind at 1. unfold M_bind.
  destruct (prepare_process_args _ _ _ _ _ _ _ w) as [[[kwargs ev]|e] w1];
    [|reflexivity].
  cbv zeta. unfold mbind at 1. unfold M_bind, try_except.
  unfold mbind at 1. unfold M_bind, dict_items, Popen.
  destruct (popen_outcome _ _ _) as [e|pid].
  - destruct (is_Exception e); [|reflexivity].
    destruct env; reflexivity.
  - unfold finish_process_launch, new_proc, mbind, M_bind, mret, M_ret, raise.
    destruct win32, (is_None stdin), (bool_decide _); reflexivity.
Qed.

(** C10.  Under pythonw every call of [prepare_process_args] opens one file
    on os.devnull, and that file is still open when [launch_kernel] is
    done.  When the caller gave both stdout and stderr the spawn arguments
    hold the caller's streams, so the file is not used; when the caller gave
    neither, both entries hold that one file. *)
Theorem windowed_devnull_opened_on_every_call
    cmd stdin stdout stderr env independent cwd kw w :
  windowed = true →
  live (default (environ sys) env) w →
  devnull_files
    (prepare_process_args stdin stdout stderr env independent cwd kw w).2
  = next_handle w :: devnull_files w
  ∧ devnull_files (launch_kernel cmd stdin stdout stderr env independent cwd kw w).2
    = next_handle w :: devnull_files w
  ∧ (flags_ok kw = true →
     ∃ kwargs ev w',
       prepare_process_args stdin stdout stderr env independent cwd kw w
         = (Ret (kwargs, ev), w')
       ∧ (stdout ≠ VNone → stderr ≠ VNone →
          deref kwargs w' !! "stdout" = Some stdout
          ∧ deref kwargs w' !! "stderr" = Some stderr)
       ∧ (stdout = VNone → stderr = VNone →
          deref kwargs w' !! "stdout" = Some (VFile (next_handle w))
          ∧ deref kwargs w' !! "stderr" = Some (VFile (next_handle w)))).
Proof.
  intros Hwd Hl.
  split; [apply prepare_opens_devnull; done|].
  split; [rewrite launch_kernel_keeps_devnull; apply prepare_opens_devnull; done|].
  intros Hf.
  destruct (prepare_process_args_ok stdin stdout stderr env independent cwd kw w Hl Hf)
    as (kwargs & le & w' & Hrun & P).
  eexists kwargs, _, w'. split; [exact Hrun|].
  rewrite (prepared_kwargs P), kwargs_stdout, kwargs_stderr.
  unfold stream_arg, blackhole_handle. rewrite Hwd.
  split.
  - intros Ho He. destruct stdout, stderr; done.
  - intros -> ->. done.
Qed.

(** C1, as the code has it.  A mapping supplied by the caller is not
    copied: the spawn arguments refer to that very object and the injected
    variables are written into it, while every other dict that existed
    before the call keeps its contents.  Only when no mapping is supplied is
    a copy made, of os.environ: the spawn arguments refer to a new object,
    the injected variables are written into it, and every dict that existed
    before the call, os.environ among them, keeps its contents. *)
Theorem env_written_in_place_unless_absent
    stdin stdout stderr env independent cwd kw w :
  live (default (environ sys) env) w →
  flags_ok kw = true →
  ∃ kwargs le ev w',
    prepare_process_args stdin stdout stderr env independent cwd kw w
      = (Ret (kwargs, ev), w')
    ∧ deref kwargs w' !! "env" = Some (VDict le)
    ∧ deref le w' = child_env independent w (deref (default (environ sys) env) w)
    ∧ match env with
      | Some l =>
          le = l
          ∧ ∀ l', l' ≠ l → is_Some (heap w !! l') → heap w' !! l' = heap w !! l'
      | None =>
          heap w !! le = None
          ∧ ∀ l', is_Some (heap w !! l') → heap w' !! l' = heap w !! l'
      end.
Proof.
  intros Hl Hf.
  destruct (prepare_process_args_ok stdin stdout stderr env independent cwd kw w Hl Hf)
    as (kwargs & le & w' & Hrun & P).
  eexists kwargs, le, _, w'. split; [exact Hrun|].
  split; [rewrite (prepared_kwargs P); apply kwargs_env|].
  split; [exact (prepared_env P)|].
  pose proof (prep_env_loc _ _ _ _ _ _ _ _ _ _ _ _ P) as Hloc.
  destruct env as [l|].
  - split; [exact Hloc|]. intros l' Hne Hl'. subst le.
    apply (prepared_frame P); done.
  - split; [exact Hloc|]. intros l' Hl'.
    apply (prepared_frame P); [done|].
    intros ->. rewrite Hloc in Hl'. destruct Hl'; done.
Qed.

(** C8.  When the operating system answers the two spawn functions alike,
    the blocking and the non-blocking launch are the same function of their
    inputs and of the world: same result or exception, same final world
    (spawn arguments, expanded command, log, process object). *)
Theorem async_launch_kernel_same_as_launch_kernel
    cmd stdin stdout stderr env independent cwd kw w :
  (∀ args kwargs w1, async_outcome args kwargs w1 = popen_outcome args kwargs w1) →
  async_launch_kernel cmd stdin stdout stderr env independent cwd kw w
  = launch_kernel cmd stdin stdout stderr env independent cwd kw w.
Proof.
  intros Hsame. unfold async_launch_kernel, launch_kernel, mbind, M_bind.
  destruct (prepare_process_args _ _ _ _ _ _ _ w) as [[[kwargs ev]|e] w1];
    [|reflexivity].
  unfold try_except, dict_items, create_subprocess_exec, Popen.
  rewrite Hsame. reflexivity.
Qed.

(** ** The failure path *)

Lemma without_env_delete (K : gmap string pyval) : without_env K = delete "env" K.
Proof.
  apply map_eq. intros k. unfold without_env.
  destruct (decide (k = "env")) as [->|Hne].
  - rewrite lookup_delete_eq. apply map_lookup_filter_None. right.
    intros v _ Hv. simpl in Hv. done.
  - rewrite lookup_delete_ne by done.
    destruct (K !! k) as [v|] eqn:Hk.
    + apply map_lookup_filter_Some. done.
    + apply map_lookup_filter_None. left. done.
Qed.

(** With an environment supplied by the caller, a spawn that raises an
    [Exception] is logged (the expanded command, the PATH of that
    environment or os.defpath, the spawn arguments without env) and the
    exception is raised again; there is one spawn attempt. *)
Lemma launch_kernel_logs_and_reraises
    cmd stdin stdout stderr l independent cwd kw w :
  live l w →
  flags_ok kw = true →
  ∃ kwargs ev w',
    prepare_process_args stdin stdout stderr (Some l) independent cwd kw w
      = (Ret (kwargs, ev), w')
    ∧ ∀ e,
        popen_outcome (expanduser <$> cmd) (deref kwargs w') w' = inl e →
        is_Exception e = true →
        ∃ w'',
          launch_kernel cmd stdin stdout stderr (Some l) independent cwd kw w
            = (Raise e, w'')
          ∧ logged w''
            = LogEntry (expanduser <$> cmd)
                       (default (VStr (defpath sys)) (deref l w' !! "PATH"))
                       (delete "env" (deref kwargs w')) :: logged w
          ∧ spawned w'' = (expanduser <$> cmd) :: spawned w.
Proof.
  intros Hl Hf.
  destruct (prepare_process_args_ok stdin stdout stderr (Some l) independent cwd kw w
              Hl Hf) as (kwargs & le & w' & Hrun & P).
  eexists kwargs, _, w'. split; [exact Hrun|].
  intros e Hspawn He.
  rewrite (launch_kernel_spawn_failed_env cmd _ _ _ _ _ _ _ _ _ _ _ Hrun l e eq_refl
             Hspawn He).
  eexists. split; [reflexivity|]. simpl.
  rewrite without_env_delete.
  rewrite (prep_logged _ _ _ _ _ _ _ _ _ _ _ _ P).
  rewrite (prep_spawned _ _ _ _ _ _ _ _ _ _ _ _ P). done.
Qed.

(** Without an environment the handler itself fails: [env] is still None
    in [launch_kernel], [env.get] raises AttributeError, nothing is logged
    and the exception of the spawn is not the one that reaches the caller. *)
Lemma launch_kernel_no_env_loses_spawn_error
    cmd stdin stdout stderr independent cwd kw w :
  live (environ sys) w →
  flags_ok kw = true →
  ∃ kwargs ev w',
    prepare_process_args stdin stdout stderr None independent cwd kw w
      = (Ret (kwargs, ev), w')
    ∧ ∀ e,
        popen_outcome (expanduser <$> cmd) (deref kwargs w') w' = inl e →
        is_Exception e = true →
        ∃ w'',
          launch_kernel cmd stdin stdout stderr None independent cwd kw w
            = (Raise AttributeError, w'')
          ∧ logged w'' = logged w.
Proof.
  intros Hl Hf.
  destruct (prepare_process_args_ok stdin stdout stderr None independent cwd kw w
              Hl Hf) as (kwargs & le & w' & Hrun & P).
  eexists kwargs, _, w'. split; [exact Hrun|].
  intros e Hspawn He.
  rewrite (launch_kernel_spawn_failed_no_env cmd _ _ _ _ _ _ _ _ _ _ _ Hrun e eq_refl
             Hspawn He).
  eexists. split; [reflexivity|]. simpl.
  exact (prep_logged _ _ _ _ _ _ _ _ _ _ _ _ P).
Qed.

(** ** Further properties of the launcher *)

Lemma child_env_other independent w (E : gmap string pyval) k :
  k ∉ injected_keys → child_env independent w E !! k = E !! k.
Proof.
  intros Hk. unfold injected_keys in Hk.
  repeat (apply not_elem_of_cons in Hk as [? Hk]).
  unfold child_env. destruct win32, independent; cbv zeta;
    rewrite ?lookup_insert_ne by done; reflexivity.
Qed.

Lemma prepared_env_live stdin stdout stderr env independent cwd kw w kwargs le ev w' :
  prepared stdin stdout stderr env independent cwd kw w kwargs le ev w' →
  live le w'.
Proof.
  intros [Hh _ Hne _ _ _ _ _ _ _ _ _]. unfold live. rewrite Hh.
  rewrite lookup_insert_ne by done. rewrite lookup_insert_eq. eauto.
Qed.

Lemma launch_kernel_prepare_raises cmd stdin stdout stderr env independent cwd kw w e w1 :
  prepare_process_args stdin stdout stderr env independent cwd kw w = (Raise e, w1) →
  launch_kernel cmd stdin stdout stderr env independent cwd kw w = (Raise e, w1).
Proof. intros Hprep. unfold launch_kernel. apply bind_raise. exact Hprep. Qed.

(** On win32 the spawn arguments always carry close_fds=False, whatever the
    caller passed under that name. *)
Theorem win32_close_fds_disabled stdin stdout stderr env independent cwd kw w :
  platform sys = "win32" →
  live (default (environ sys) env) w →
  flags_ok kw = true →
  ∃ kwargs ev w',
    prepare_process_args stdin stdout stderr env independent cwd kw w
      = (Ret (kwargs, ev), w')
    ∧ deref kwargs w' !! "close_fds" = Some (VBool false).
Proof.
  intros Hp%win32_true Hl Hf.
  destruct (prepare_process_args_ok stdin stdout stderr env independent cwd kw w Hl Hf)
    as (kwargs & le & w' & Hrun & P).
  eexists kwargs, _, w'. split; [exact Hrun|].
  rewrite (prepared_kwargs P). apply kwargs_close_fds. exact Hp.
Qed.

(** Under pythonw on win32, without [independent], a caller's creationflags
    that is not an integer makes the launch raise TypeError before any spawn
    is attempted, and nothing is logged: the preparation runs outside the
    try block. *)
Theorem launch_kernel_bad_creationflags cmd stdin stdout stderr env cwd kw w :
  platform sys = "win32" →
  windowed = true →
  live (default (environ sys) env) w →
  flags_ok kw = false →
  ∃ w',
    launch_kernel cmd stdin stdout stderr env false cwd kw w = (Raise TypeError, w')
    ∧ spawned w' = spawned w
    ∧ logged w' = logged w.
Proof.
  intros Hp%win32_true Hwd Hl Hf.
  destruct (prepare_process_args_type_error stdin stdout stderr env cwd kw w
              Hl Hp Hwd Hf) as (w' & Hrun & _ & Hs & Hlog).
  exists w'. split; [|done].
  apply launch_kernel_prepare_raises. exact Hrun.
Qed.

(** The creation flags on win32.  With [independent] they are
    CREATE_NEW_PROCESS_GROUP, or-ed with CREATE_NO_WINDOW under pythonw, and
    the caller's creationflags is discarded.  Without [independent], under
    pythonw they are the caller's flags (0 when absent) or-ed with
    CREATE_NO_WINDOW, and otherwise the entry is the caller's, absent when the
    caller gave none. *)
Theorem win32_creationflags_value stdin stdout stderr env independent cwd kw w :
  platform sys = "win32" →
  live (default (environ sys) env) w →
  flags_ok kw = true →
  ∃ kwargs ev w',
    prepare_process_args stdin stdout stderr env independent cwd kw w
      = (Ret (kwargs, ev), w')
    ∧ deref kwargs w' !! "creationflags"
      = if independent then
          Some (VInt (if windowed
                      then Z.lor CREATE_NEW_PROCESS_GROUP CREATE_NO_WINDOW
                      else CREATE_NEW_PROCESS_GROUP))
        else if windowed then
          Some (VInt (Z.lor (flags_of (kw !! "creationflags")) CREATE_NO_WINDOW))
        else kw !! "creationflags".
Proof.
  intros Hp%win32_true Hl Hf.
  destruct (prepare_process_args_ok stdin stdout stderr env independent cwd kw w Hl Hf)
    as (kwargs & le & w' & Hrun & P).
  eexists kwargs, _, w'. split; [exact Hrun|].
  rewrite (prepared_kwargs P). unfold expected_kwargs. rewrite Hp. cbv zeta.
  rewrite lookup_insert_ne by done.
  assert (Hm : ∀ a b c d e : pyval,
    (<["stdin" := a]> (<["stdout" := b]> (<["stderr" := c]>
       (<["cwd" := d]> (<["env" := e]> ∅)))) ∪ kw) !! "creationflags"
    = kw !! "creationflags").
  { intros. rewrite lookup_union_r; [done|].
    rewrite !lookup_insert_ne by done. apply lookup_empty. }
  destruct independent, windowed; rewrite ?lookup_insert_eq, ?Hm; reflexivity.
Qed.

(** On POSIX none of the win32 plumbing happens: no interrupt event is
    created, no handle is duplicated, the entries creationflags and
    close_fds of the spawn arguments are the caller's, and the two
    interrupt-event variables of the child environment are as the source
    environment had them. *)
Theorem posix_no_win32_plumbing stdin stdout stderr env independent cwd kw w :
  platform sys ≠ "win32" →
  live (default (environ sys) env) w →
  ∃ kwargs le w',
    prepare_process_args stdin stdout stderr env independent cwd kw w
      = (Ret (kwargs, None), w')
    ∧ events w' = events w
    ∧ duplicated w' = duplicated w
    ∧ deref kwargs w' !! "creationflags" = kw !! "creationflags"
    ∧ deref kwargs w' !! "close_fds" = kw !! "close_fds"
    ∧ deref kwargs w' !! "env" = Some (VDict le)
    ∧ deref le w' !! "JPY_INTERRUPT_EVENT"
      = deref (default (environ sys) env) w !! "JPY_INTERRUPT_EVENT"
    ∧ deref le w' !! "IPY_INTERRUPT_EVENT"
      = deref (default (environ sys) env) w !! "IPY_INTERRUPT_EVENT".
Proof.
  intros Hp%win32_false Hl.
  destruct (prepare_process_args_posix stdin stdout stderr env independent cwd kw w Hp Hl)
    as (kwargs & le & w' & Hrun & P).
  exists kwargs, le, w'. split; [exact Hrun|].
  split. { rewrite (prep_events _ _ _ _ _ _ _ _ _ _ _ _ P), Hp. reflexivity. }
  split. { rewrite (prep_dups _ _ _ _ _ _ _ _ _ _ _ _ P), Hp. reflexivity. }
  rewrite (prepared_kwargs P), (prepared_env P).
  assert (Hm : ∀ k, k ≠ "stdin" → k ≠ "stdout" → k ≠ "stderr" → k ≠ "cwd" →
                    k ≠ "env" → k ≠ "start_new_session" →
    expected_kwargs stdin stdout stderr le independent cwd kw w !! k = kw !! k).
  { intros k ? ? ? ? ? ?. unfold expected_kwargs. rewrite Hp.
    rewrite lookup_insert_ne by done. rewrite lookup_union_r; [done|].
    rewrite !lookup_insert_ne by done. apply lookup_empty. }
  split; [apply Hm; done|]. split; [apply Hm; done|].
  split; [apply kwargs_env|].
  unfold child_env. rewrite Hp.
  destruct independent; rewrite ?lookup_insert_ne by done; done.
Qed.

(** With an environment supplied by the caller, a spawn that fails with an
    [Exception] is answered by one log entry (the expanded command; the PATH
    of the caller's environment, or os.defpath when it has none; every spawn
    argument except env, and no env) and the same exception is raised
    again after a single spawn attempt. *)
Theorem spawn_failure_diagnostic cmd stdin stdout stderr l independent cwd kw w :
  live l w →
  flags_ok kw = true →
  ∃ kwargs ev w',
    prepare_process_args stdin stdout stderr (Some l) independent cwd kw w
      = (Ret (kwargs, ev), w')
    ∧ ∀ e,
        popen_outcome (expanduser <$> cmd) (deref kwargs w') w' = inl e →
        is_Exception e = true →
        ∃ entry w'',
          launch_kernel cmd stdin stdout stderr (Some l) independent cwd kw w
            = (Raise e, w'')
          ∧ logged w'' = entry :: logged w
          ∧ log_cmd entry = expanduser <$> cmd
          ∧ log_path entry = default (VStr (defpath sys)) (deref l w !! "PATH")
          ∧ log_kwargs entry !! "env" = None
          ∧ (∀ k, k ≠ "env" → log_kwargs entry !! k = deref kwargs w' !! k)
          ∧ spawned w'' = (expanduser <$> cmd) :: spawned w.
Proof.
  intros Hl Hf.
  destruct (prepare_process_args_ok stdin stdout stderr (Some l) independent cwd kw w
              Hl Hf) as (kwargs & le & w' & Hrun & P).
  eexists kwargs, _, w'. split; [exact Hrun|].
  intros e Hspawn He.
  rewrite (launch_kernel_spawn_failed_env cmd _ _ _ _ _ _ _ _ _ _ _ Hrun l e eq_refl
             Hspawn He).
  eexists _, _. split; [reflexivity|]. simpl.
  rewrite (prep_logged _ _ _ _ _ _ _ _ _ _ _ _ P).
  rewrite (prep_spawned _ _ _ _ _ _ _ _ _ _ _ _ P).
  split; [reflexivity|]. split; [reflexivity|].
  split.
  { pose proof (prep_env_loc _ _ _ _ _ _ _ _ _ _ _ _ P) as Hloc. simpl in Hloc.
    subst le. rewrite (prepared_env P). simpl.
    rewrite child_env_other; [reflexivity|].
    unfold injected_keys. rewrite !not_elem_of_cons. repeat split; try done.
    apply not_elem_of_nil. }
  rewrite without_env_delete.
  split; [apply lookup_delete_eq|].
  split; [|reflexivity].
  intros k Hk. apply lookup_delete_ne. done.
Qed.


(** A launch whose spawn succeeds spawns once, with every argument of the
    command expanded, logs nothing, leaves the dicts as the preparation left
    them and returns the process the spawn made; away from win32 that
    process gets no [win32_interrupt_event] attribute. *)
Theorem launch_kernel_success cmd stdin stdout stderr env independent cwd kw w :
  live (default (environ sys) env) w →
  flags_ok kw = true →
  ∃ kwargs ev w',
    prepare_process_args stdin stdout stderr env independent cwd kw w
      = (Ret (kwargs, ev), w')
    ∧ ∀ pid,
        popen_outcome (expanduser <$> cmd) (deref kwargs w') w' = inr pid →
        ∃ p w'',
          launch_kernel cmd stdin stdout stderr env independent cwd kw w = (Ret p, w'')
          ∧ proc_pid p = pid
          ∧ spawned w'' = (expanduser <$> cmd) :: spawned w
          ∧ logged w'' = logged w
          ∧ heap w'' = heap w'
          ∧ (platform sys ≠ "win32" → win32_interrupt_event p = None).
Proof.
  intros Hl Hf.
  destruct (prepare_process_args_ok stdin stdout stderr env independent cwd kw w Hl Hf)
    as (kwargs & le & w' & Hrun & P).
  eexists kwargs, _, w'. split; [exact Hrun|].
  intros pid Hspawn.
  rewrite (launch_kernel_spawned cmd _ _ _ _ _ _ _ _ _ _ _ Hrun pid Hspawn).
  rewrite finish_new_proc.
  2:{ rewrite (prepared_kwargs P). apply kwargs_stdin. }
  eexists _, _. split; [reflexivity|]. simpl.
  rewrite (prep_logged _ _ _ _ _ _ _ _ _ _ _ _ P).
  rewrite (prep_spawned _ _ _ _ _ _ _ _ _ _ _ _ P).
  repeat split; try reflexivity.
  intros Hp%win32_false. rewrite Hp. reflexivity.
Qed.

(** The launcher writes no other variable of the child environment: every
    key apart from JPY_PARENT_PID and the two interrupt-event names has in
    the child environment the value of the source environment (the
    caller's mapping, or os.environ). *)
Theorem other_environment_variables_kept
    stdin stdout stderr env independent cwd kw w :
  live (default (environ sys) env) w →
  flags_ok kw = true →
  ∃ kwargs le ev w',
    prepare_process_args stdin stdout stderr env independent cwd kw w
      = (Ret (kwargs, ev), w')
    ∧ deref kwargs w' !! "env" = Some (VDict le)
    ∧ ∀ k, k ∉ injected_keys →
           deref le w' !! k = deref (default (environ sys) env) w !! k.
Proof.
  intros Hl Hf.
  destruct (prepare_process_args_ok stdin stdout stderr env independent cwd kw w Hl Hf)
    as (kwargs & le & w' & Hrun & P).
  eexists kwargs, le, _, w'. split; [exact Hrun|].
  split; [rewrite (prepared_kwargs P); apply kwargs_env|].
  intros k Hk. rewrite (prepared_env P). apply child_env_other. exact Hk.
Qed.

(** Two launches on POSIX that share the caller's environment dict.  The
    first, not independent, leaves JPY_PARENT_PID in the dict; a second
    launch with the same dict, independent or not, leaves the dict as the
    first left it, so an independent second child still receives
    JPY_PARENT_PID. *)
Theorem posix_env_reused_across_launches
    stdin1 stdout1 stderr1 cwd1 kw1 stdin2 stdout2 stderr2 independent2 cwd2 kw2 l w :
  platform sys ≠ "win32" →
  live l w →
  ∃ kwargs1 w1 kwargs2 w2,
    prepare_process_args stdin1 stdout1 stderr1 (Some l) false cwd1 kw1 w
      = (Ret (kwargs1, None), w1)
    ∧ prepare_process_args stdin2 stdout2 stderr2 (Some l) independent2 cwd2 kw2 w1
      = (Ret (kwargs2, None), w2)
    ∧ deref kwargs2 w2 !! "env" = Some (VDict l)
    ∧ deref l w2 = deref l w1
    ∧ deref l w2 !! "JPY_PARENT_PID" = Some (VStr (pretty (getpid sys))).
Proof.
  intros Hp%win32_false Hl.
  destruct (prepare_process_args_posix stdin1 stdout1 stderr1 (Some l) false cwd1 kw1 w
              Hp Hl) as (kwargs1 & le1 & w1 & Hrun1 & P1).
  pose proof (prep_env_loc _ _ _ _ _ _ _ _ _ _ _ _ P1) as Hloc1. simpl in Hloc1.
  subst le1.
  pose proof (prepared_env_live _ _ _ _ _ _ _ _ _ _ _ _ P1) as Hl1.
  destruct (prepare_process_args_posix stdin2 stdout2 stderr2 (Some l) independent2
              cwd2 kw2 w1 Hp Hl1) as (kwargs2 & le2 & w2 & Hrun2 & P2).
  pose proof (prep_env_loc _ _ _ _ _ _ _ _ _ _ _ _ P2) as Hloc2. simpl in Hloc2.
  subst le2.
  exists kwargs1, w1, kwargs2, w2.
  split; [exact Hrun1|]. split; [exact Hrun2|].
  split; [rewrite (prepared_kwargs P2); apply kwargs_env|].
  pose proof (prepared_env P1) as HE1. pose proof (prepared_env P2) as HE2.
  simpl in HE1, HE2. unfold child_env in HE1, HE2. rewrite Hp in HE1, HE2.
  rewrite HE2, HE1.
  split.
  - destruct independent2; [reflexivity|]. apply insert_insert_eq.
  - destruct independent2; rewrite ?insert_insert_eq; apply lookup_insert_eq.
Qed.

(** ** The windowed interpreter test *)







(** ** CustomTestProvisioner *)

Section ProvisionerFacts.
Variable poll_outcome : Z → nat → option Z.
Variable wait_outcome : Z → Z.
Variable killpg_outcome : Z → Z → option exception.
Variable getpgid_outcome : Z → exception + Z.
Variable has_getpgid has_killpg : bool.

(** Without a process every operation returns at once, [poll] and [wait]
    with 0, and neither the provisioner nor the operating system is touched;
    [wait] needs no turn of its loop for that. *)
Theorem provisioner_without_process_is_inert self fuel signum restart :
  self_process self = None →
  CustomTestProvisioner_has_process self = false
  ∧ CustomTestProvisioner_poll poll_outcome self = (Some 0, self)
  ∧ CustomTestProvisioner_wait poll_outcome wait_outcome fuel self = Some (Ret 0, self)
  ∧ CustomTestProvisioner_send_signal killpg_outcome has_killpg signum self = (Ret tt, self)
  ∧ CustomTestProvisioner_kill restart self = (Ret tt, self)
  ∧ CustomTestProvisioner_terminate restart self = (Ret tt, self).
Proof.
  intros Hp.
  unfold CustomTestProvisioner_has_process, CustomTestProvisioner_poll,
    CustomTestProvisioner_wait, CustomTestProvisioner_send_signal,
    CustomTestProvisioner_kill, CustomTestProvisioner_terminate.
  rewrite Hp. repeat split; reflexivity.
Qed.

Lemma wait_loop_exits code n :
  ∀ fuel self p,
    self_process self = Some p →
    po_returncode p = None →
    (∀ i, (i < n)%nat → poll_outcome (proc_pid (po_proc p)) (clock self + i) = None) →
    poll_outcome (proc_pid (po_proc p)) (clock self + n) = Some code →
    (n < fuel)%nat →
    wait_loop poll_outcome fuel self
    = Some (Provisioner (self_world self)
              (Some (ProcessObject (po_proc p) (po_stdout p) (po_stderr p) (Some code)))
              (self_pid self) (self_pgid self) (self_connection_info self)
              (clock self + n) (os_calls self)).
Proof.
  induction n as [|n IH]; intros fuel self p Hp Hrc Hrun Hexit Hfuel;
    destruct fuel as [|fuel]; try lia;
    destruct self as [w pr pi pg ci now calls]; simpl in *; subst pr;
    unfold CustomTestProvisioner_poll, Popen_poll; simpl; rewrite Hrc.
  - rewrite Nat.add_0_r in Hexit |- *. rewrite Hexit. reflexivity.
  - rewrite <- (Nat.add_0_r now) at 1. rewrite (Hrun 0%nat) by lia.
    rewrite (IH fuel _ p); simpl; try done; try lia.
    + rewrite Nat.add_succ_r. reflexivity.
    + intros i Hi. specialize (Hrun (S i)). rewrite Nat.add_succ_r in Hrun.
      apply Hrun. lia.
    + rewrite Nat.add_succ_r in Hexit. exact Hexit.
Qed.

Lemma close_streams_calls p self :
  close_streams p self
  = Provisioner (self_world self) (self_process self) (self_pid self) (self_pgid self)
      (self_connection_info self) (clock self)
      ((match proc_stdin (po_proc p) with
        | Some _ => [Close (proc_pid (po_proc p)) "stdin"] | None => [] end
        ++ match po_stderr p with
           | Some _ => [Close (proc_pid (po_proc p)) "stderr"] | None => [] end
        ++ match po_stdout p with
           | Some _ => [Close (proc_pid (po_proc p)) "stdout"] | None => [] end)%list
       ++ os_calls self)%list.
Proof.
  unfold close_streams. destruct self as [w pr pi pg ci now calls].
  destruct (po_stdout p), (po_stderr p), (proc_stdin (po_proc p)); reflexivity.
Qed.

Lemma stream_closes_spec pid (si se so : option bool) :
  let closes :=
    (match si with Some _ => [Close pid "stdin"] | None => [] end
     ++ match se with Some _ => [Close pid "stderr"] | None => [] end
     ++ match so with Some _ => [Close pid "stdout"] | None => [] end)%list in
  (∀ c, c ∈ closes → ∃ attr, c = Close pid attr)
  ∧ (Close pid "stdout" ∈ closes ↔ is_Some so)
  ∧ (Close pid "stderr" ∈ closes ↔ is_Some se)
  ∧ (Close pid "stdin" ∈ closes ↔ is_Some si).
Proof.
  destruct si, se, so; simpl; repeat split.
  all: try (intros c Hc;
            repeat (apply elem_of_cons in Hc as [->|Hc]; [eexists; reflexivity|]);
            by apply elem_of_nil in Hc).
  all: try (intros _; eauto; fail).
  all: try (intros _;
            repeat (first [apply list_elem_of_here | apply list_elem_of_further]); fail).
  all: try (intros Hin; exfalso;
            repeat (apply elem_of_cons in Hin as [Hin|Hin]; [congruence|]);
            by apply elem_of_nil in Hin).
  all: try (intros [? Hx]; discriminate Hx).
Qed.

Lemma wait_run self p n code fuel :
  self_process self = Some p →
  po_returncode p = None →
  (∀ i, (i < n)%nat → poll_outcome (proc_pid (po_proc p)) (clock self + i) = None) →
  poll_outcome (proc_pid (po_proc p)) (clock self + n) = Some code →
  (n < fuel)%nat →
  CustomTestProvisioner_wait poll_outcome wait_outcome fuel self
  = Some (Ret code,
          Provisioner (self_world self) None (self_pid self) (self_pgid self)
            (self_connection_info self) (clock self + n)
            ((match proc_stdin (po_proc p) with
              | Some _ => [Close (proc_pid (po_proc p)) "stdin"] | None => [] end
              ++ match po_stderr p with
                 | Some _ => [Close (proc_pid (po_proc p)) "stderr"] | None => [] end
              ++ match po_stdout p with
                 | Some _ => [Close (proc_pid (po_proc p)) "stdout"] | None => [] end)%list
             ++ os_calls self)%list).
Proof.
  intros Hp Hrc Hrun Hexit Hfuel.
  unfold CustomTestProvisioner_wait. rewrite Hp.
  rewrite (wait_loop_exits code n fuel self p Hp Hrc Hrun Hexit Hfuel).
  cbv zeta. simpl self_process. cbv iota beta.
  rewrite close_streams_calls. reflexivity.
Qed.

(** [wait] on a process that the operating system reports as running for
    [n] sleeps and as exited with [code] after that: given more than [n]
    turns, it returns [code] after exactly [n] sleeps, drops the process
    ([has_process] becomes false), keeps pid and pgid, and the only calls it
    makes are [close] on those of stdout, stderr and stdin that are streams;
    it sends no signal.  A [poll] after that returns 0. *)
Theorem wait_returns_exit_code_and_drops_process self p n code fuel :
  self_process self = Some p →
  po_returncode p = None →
  (∀ i, (i < n)%nat → poll_outcome (proc_pid (po_proc p)) (clock self + i) = None) →
  poll_outcome (proc_pid (po_proc p)) (clock self + n) = Some code →
  (n < fuel)%nat →
  ∃ self' closes,
    CustomTestProvisioner_wait poll_outcome wait_outcome fuel self = Some (Ret code, self')
    ∧ CustomTestProvisioner_has_process self' = false
    ∧ clock self' = (clock self + n)%nat
    ∧ self_pid self' = self_pid self
    ∧ self_pgid self' = self_pgid self
    ∧ self_world self' = self_world self
    ∧ os_calls self' = (closes ++ os_calls self)%list
    ∧ (∀ c, c ∈ closes → ∃ attr, c = Close (proc_pid (po_proc p)) attr)
    ∧ (Close (proc_pid (po_proc p)) "stdout" ∈ closes ↔ is_Some (po_stdout p))
    ∧ (Close (proc_pid (po_proc p)) "stderr" ∈ closes ↔ is_Some (po_stderr p))
    ∧ (Close (proc_pid (po_proc p)) "stdin" ∈ closes ↔ is_Some (proc_stdin (po_proc p)))
    ∧ CustomTestProvisioner_poll poll_outcome self' = (Some 0, self').
Proof.
  intros Hp Hrc Hrun Hexit Hfuel.
  rewrite (wait_run self p n code fuel Hp Hrc Hrun Hexit Hfuel).
  eexists _, _. split; [reflexivity|].
  repeat (split; [reflexivity|]).
  pose proof (stream_closes_spec (proc_pid (po_proc p)) (proc_stdin (po_proc p))
                (po_stderr p) (po_stdout p)) as (H1 & H2 & H3 & H4).
  repeat (split; [assumption|]). reflexivity.
Qed.

(** How [send_signal] reaches a process it holds.  SIGINT on win32 goes to
    the interrupt event and never becomes a signal.  Any other case with a
    process-group id that is neither None nor 0, where os.killpg exists,
    signals the group, and the process itself only after os.killpg raised
    OSError; another exception of os.killpg reaches the caller.  Without
    such a group id, or without os.killpg, the process is signalled
    directly. *)
Theorem send_signal_dispatch signum self p :
  self_process self = Some p →
  let send := CustomTestProvisioner_send_signal killpg_outcome has_killpg signum self in
  let pid := proc_pid (po_proc p) in
  (signum = SIGINT → win32 = true → ∀ event,
     win32_interrupt_event (po_proc p) = Some event →
     send = (Ret tt, record_call (SendInterrupt event) self))
  ∧ (¬ (signum = SIGINT ∧ win32 = true) →
     ∀ pgid, self_pgid self = Some pgid → pgid ≠ 0 → has_killpg = true →
       (killpg_outcome pgid signum = None →
        send = (Ret tt, record_call (KillPg pgid signum) self))
       ∧ (∀ errno, killpg_outcome pgid signum = Some (OSError errno) →
          send = (Ret tt, record_call (SendSignal pid signum)
                            (record_call (KillPg pgid signum) self)))
       ∧ (∀ e, killpg_outcome pgid signum = Some e → (∀ errno, e ≠ OSError errno) →
          send = (Raise e, record_call (KillPg pgid signum) self)))
  ∧ (¬ (signum = SIGINT ∧ win32 = true) →
     self_pgid self = None ∨ self_pgid self = Some 0 ∨ has_killpg = false →
     send = (Ret tt, record_call (SendSignal pid signum) self)).
Proof.
  intros Hp. cbv zeta. unfold CustomTestProvisioner_send_signal. rewrite Hp.
  split; [|split].
  - intros -> Hw event Hev. rewrite Hw, Hev.
    rewrite bool_decide_eq_true_2 by done. reflexivity.
  - intros Hn pgid Hg Hg0 Hk.
    assert (Hc : bool_decide (signum = SIGINT) && win32 = false).
    { apply andb_false_iff. destruct win32 eqn:Hw; [left|by right].
      apply bool_decide_eq_false_2. intros ->. apply Hn. done. }
    rewrite Hc, Hg, Hk.
    assert (Hz : negb (pgid =? 0)%Z && true = true).
    { rewrite andb_true_r. apply negb_true_iff. apply Z.eqb_neq. exact Hg0. }
    rewrite Hz.
    split; [intros ->; reflexivity|].
    split; [intros errno ->; reflexivity|].
    intros e -> He. destruct e; try reflexivity. exfalso. eapply He. reflexivity.
  - intros Hn Hd.
    assert (Hc : bool_decide (signum = SIGINT) && win32 = false).
    { apply andb_false_iff. destruct win32 eqn:Hw; [left|by right].
      apply bool_decide_eq_false_2. intros ->. apply Hn. done. }
    rewrite Hc.
    destruct Hd as [-> | [-> | ->]]; [reflexivity|reflexivity|].
    destruct (self_pgid self) as [g|]; [|reflexivity].
    rewrite andb_false_r. reflexivity.
Qed.

(** What the provisioner's [launch_kernel] records.  When the launcher
    returns a process, the provisioner holds it, its pid is that of the
    process, and its pgid is what os.getpgid answers, or None when os.getpgid
    does not exist or raises OSError; the connection info is returned as it
    was.  When the launcher raises, the exception reaches the caller and
    process, pid and pgid stay as they were. *)
Theorem provisioner_launch_kernel_records_process
    cmd stdin stdout stderr env independent cwd kw self :
  let launched := CustomTestProvisioner_launch_kernel getpgid_outcome has_getpgid
                    cmd stdin stdout stderr env independent cwd kw self in
  (∀ p w,
     launch_kernel cmd stdin stdout stderr env independent cwd kw (self_world self)
       = (Ret p, w) →
     (has_getpgid = false ∨ ∃ errno, getpgid_outcome (proc_pid p) = inl (OSError errno)) ∨
     (has_getpgid = true ∧ ∃ pgid, getpgid_outcome (proc_pid p) = inr pgid) →
     launched.1 = Ret (self_connection_info self)
     ∧ self_world launched.2 = w
     ∧ CustomTestProvisioner_has_process launched.2 = true
     ∧ (po_proc <$> self_process launched.2) = Some p
     ∧ self_pid launched.2 = Some (proc_pid p)
     ∧ self_pgid launched.2
       = (if has_getpgid
          then match getpgid_outcome (proc_pid p) with inr g => Some g | inl _ => None end
          else None)
     ∧ os_calls launched.2 = os_calls self)
  ∧ (∀ e w,
       launch_kernel cmd stdin stdout stderr env independent cwd kw (self_world self)
         = (Raise e, w) →
       launched.1 = Raise e
       ∧ self_world launched.2 = w
       ∧ self_process launched.2 = self_process self
       ∧ self_pid launched.2 = self_pid self
       ∧ self_pgid launched.2 = self_pgid self).
Proof.
  cbv zeta. unfold CustomTestProvisioner_launch_kernel. split.
  - intros p w -> Hg.
    destruct Hg as [[-> | [errno Hg]] | [-> [pgid Hg]]]; [| |].
    + repeat split; reflexivity.
    + rewrite Hg. destruct has_getpgid; repeat split; reflexivity.
    + rewrite Hg. repeat split; reflexivity.
  - intros e w ->. repeat split; reflexivity.
Qed.

(** A provisioner that launches a kernel and then waits for it.  If the
    spawn succeeds with [pid] and the process exits with [code] after [n]
    sleeps, the launch makes the provisioner hold the process with that
    pid, and the wait returns [code] and drops the process while the pid
    stays recorded; the kernel was spawned once; and the wait closes stdout
    and stderr exactly when the caller asked for a pipe, and stdin exactly
    when the caller gave None or a pipe (after a launch with stdin=None this
    is a second close of the pipe the launcher closed already). *)
Theorem provisioner_launch_then_wait
    cmd stdin stdout stderr env independent cwd kw self n code fuel :
  live (default (environ sys) env) (self_world self) →
  flags_ok kw = true →
  (∀ pid e, has_getpgid = true → getpgid_outcome pid = inl e → ∃ errno, e = OSError errno) →
  ∃ kwargs ev w',
    prepare_process_args stdin stdout stderr env independent cwd kw (self_world self)
      = (Ret (kwargs, ev), w')
    ∧ ∀ pid,
        popen_outcome (expanduser <$> cmd) (deref kwargs w') w' = inr pid →
        (∀ i, (i < n)%nat → poll_outcome pid (clock self + i) = None) →
        poll_outcome pid (clock self + n) = Some code →
        (n < fuel)%nat →
        ∃ self1 self2 closes,
          CustomTestProvisioner_launch_kernel getpgid_outcome has_getpgid
            cmd stdin stdout stderr env independent cwd kw self
            = (Ret (self_connection_info self), self1)
          ∧ CustomTestProvisioner_has_process self1 = true
          ∧ self_pid self1 = Some pid
          ∧ CustomTestProvisioner_wait poll_outcome wait_outcome fuel self1
            = Some (Ret code, self2)
          ∧ CustomTestProvisioner_has_process self2 = false
          ∧ self_pid self2 = Some pid
          ∧ spawned (self_world self2) = (expanduser <$> cmd) :: spawned (self_world self)
          ∧ os_calls self2 = (closes ++ os_calls self)%list
          ∧ (∀ c, c ∈ closes → ∃ attr, c = Close pid attr)
          ∧ (Close pid "stdout" ∈ closes ↔ stdout = PIPE)
          ∧ (Close pid "stderr" ∈ closes ↔ stderr = PIPE)
          ∧ (Close pid "stdin" ∈ closes ↔ stdin = VNone ∨ stdin = PIPE).
Proof.
  intros Hl Hf Hg.
  destruct (prepare_process_args_ok stdin stdout stderr env independent cwd kw
              (self_world self) Hl Hf) as (kwargs & le & w' & Hrun & P).
  eexists kwargs, _, w'. split; [exact Hrun|].
  intros pid Hspawn Hpoll Hexit Hfuel.
  pose proof (kwargs_stdin stdin stdout stderr le independent cwd kw (self_world self))
    as Hs.
  rewrite <- (prepared_kwargs P) in Hs.
  assert (Hlaunch := launch_kernel_spawned cmd _ _ _ _ _ _ _ _ _ _ _ Hrun pid Hspawn).
  rewrite (finish_new_proc _ _ _ _ _ Hs) in Hlaunch.
  set (p := Proc pid
              (if is_None stdin then Some true
               else proc_stdin (new_proc pid (deref kwargs w')))
              (if win32 then Some (if win32 then Some (event_handle (self_world self))
                                   else None) else None)) in Hlaunch.
  set (po := ProcessObject p (stream_of stdout) (stream_of stderr) None).
  assert (Hstep : ∃ pg,
    CustomTestProvisioner_launch_kernel getpgid_outcome has_getpgid
      cmd stdin stdout stderr env independent cwd kw self
    = (Ret (self_connection_info self),
       Provisioner (record_spawn (expanduser <$> cmd) w') (Some po) (Some pid) pg
         (self_connection_info self) (clock self) (os_calls self))).
  { unfold CustomTestProvisioner_launch_kernel. rewrite Hlaunch. cbv zeta.
    destruct has_getpgid eqn:Hh; [|eexists; reflexivity].
    simpl proc_pid.
    destruct (getpgid_outcome pid) as [e|g] eqn:He; [|eexists; reflexivity].
    destruct (Hg pid e eq_refl He) as [errno ->]. eexists; reflexivity. }
  destruct Hstep as [pg Hstep].
  eexists _, _, _. split; [exact Hstep|].
  split; [reflexivity|]. split; [reflexivity|].
  split.
  { apply (wait_run _ po n code fuel); simpl; try done. }
  simpl.
  split; [reflexivity|]. split; [reflexivity|].
  split. { rewrite (prep_spawned _ _ _ _ _ _ _ _ _ _ _ _ P). reflexivity. }
  split; [reflexivity|].
  pose proof (stream_closes_spec pid
                (if is_None stdin then Some true
                 else proc_stdin (new_proc pid (deref kwargs w')))
                (stream_of stderr) (stream_of stdout)) as (H1 & H2 & H3 & H4).
  split; [exact H1|].
  assert (Hstream : ∀ v, is_Some (stream_of v) ↔ v = PIPE).
  { intros v. unfold stream_of. destruct (bool_decide (v = PIPE)) eqn:Hv.
    - apply bool_decide_eq_true_1 in Hv. split; eauto.
    - apply bool_decide_eq_false_1 in Hv. split; [intros [? ?]; done|done]. }
  split; [rewrite H2; apply Hstream|].
  split; [rewrite H3; apply Hstream|].
  rewrite H4. unfold new_proc. simpl. rewrite Hs.
  destruct stdin as [|b|z|str|h|l0]; simpl;
    try (split; [intros [? ?]; done | intros [?|?]; done]).
  - split; eauto.
  - destruct (bool_decide (Some (VInt z) = Some PIPE)) eqn:Hz.
    + apply bool_decide_eq_true_1 in Hz. split; [intros _; right; congruence|eauto].
    + apply bool_decide_eq_false_1 in Hz.
      split; [intros [? ?]; done|]. intros [?|?]; [done|]. destruct Hz. congruence.
Qed.

End ProvisionerFacts.

End Launcher.

(** ** The model at concrete inputs *)

(** C2.  A launch without an environment ([env=None]) whose spawn fails
    with OSError: the claim asks for a logged diagnostic and for the OSError
    to reach the caller.  The code raises AttributeError instead, from
    [env.get] in the handler, and logs nothing; the spawn was tried once. *)
Theorem launch_kernel_no_env_spawn_failure :
  let r := launch_kernel posix_sys id spawn_enoent ["~/kernel"]
             VNone VNone VNone None false VNone ∅ world0 in
  spawn_enoent ["~/kernel"] ∅ world0 = inl (OSError 2)
  ∧ r.1 = Raise AttributeError
  ∧ logged r.2 = []
  ∧ spawned r.2 = [["~/kernel"]].
Proof. vm_compute. auto. Qed.

(** C1 as written fails: on POSIX, a launch that is given the caller's dict
    at location 2 as environment changes that dict in place. *)
Lemma caller_env_is_mutated :
  let w' := (prepare_process_args posix_sys VNone VNone VNone (Some 2%positive)
               false VNone ∅ world0).2 in
  deref 2 w' ≠ deref 2 world0
  ∧ deref 2 world0 !! "JPY_PARENT_PID" = None
  ∧ deref 2 w' !! "JPY_PARENT_PID" = Some (VStr "4242").
Proof.
  cbv zeta. split.
  - intros Heq. apply (f_equal (λ m : gmap string pyval, m !! "JPY_PARENT_PID")) in Heq.
    vm_compute in Heq. discriminate.
  - vm_compute. auto.
Qed.

Lemma env_written_in_place_unless_absent_witness :
  ∃ kwargs le ev w',
    prepare_process_args posix_sys VNone VNone VNone (Some 2%positive) false VNone ∅ world0
      = (Ret (kwargs, ev), w')
    ∧ deref kwargs w' !! "env" = Some (VDict le)
    ∧ deref le w'
      = child_env posix_sys false world0 (deref (default (environ posix_sys) (Some 2%positive)) world0)
    ∧ (le = 2%positive
       ∧ ∀ l', l' ≠ 2%positive → is_Some (heap world0 !! l') →
               heap w' !! l' = heap world0 !! l').
Proof.
  apply (env_written_in_place_unless_absent posix_sys VNone VNone VNone
           (Some 2%positive) false VNone ∅ world0).
  - vm_compute. eexists. reflexivity.
  - reflexivity.
Defined.

Lemma posix_new_session_and_parent_pid_witness :
  ∃ kwargs le w',
    prepare_process_args posix_sys VNone VNone VNone None false VNone ∅ world0
      = (Ret (kwargs, None), w')
    ∧ deref kwargs w' !! "start_new_session" = Some (VBool true)
    ∧ deref kwargs w' !! "env" = Some (VDict le)
    ∧ deref le w'
      = <["JPY_PARENT_PID" := VStr (pretty (getpid posix_sys))]>
          (deref (default (environ posix_sys) None) world0).
Proof.
  apply (posix_new_session_and_parent_pid posix_sys VNone VNone VNone None
           false VNone ∅ world0).
  - discriminate.
  - vm_compute. eexists. reflexivity.
Defined.

Lemma win32_process_group_or_parent_handle_witness :
  ∃ kwargs le ev w',
    prepare_process_args win_sys VNone VNone VNone None false VNone ∅ world0
      = (Ret (kwargs, ev), w')
    ∧ deref kwargs w' !! "env" = Some (VDict le)
    ∧ ∃ h, duplicated w'
           = DupHandle current_process_handle current_process_handle true
                       DUPLICATE_SAME_ACCESS h :: duplicated world0
           ∧ deref le w' !! "JPY_PARENT_PID" = Some (VStr (pretty h)).
Proof.
  apply (win32_process_group_or_parent_handle win_sys VNone VNone VNone None
           false VNone ∅ world0).
  - reflexivity.
  - vm_compute. eexists. reflexivity.
  - reflexivity.
Defined.

Lemma win32_interrupt_event_injected_and_attached_witness :
  ∃ kwargs le h w',
    prepare_process_args win_sys VNone VNone VNone None false VNone ∅ world0
      = (Ret (kwargs, Some h), w')
    ∧ events w' = h :: events world0
    ∧ deref kwargs w' !! "env" = Some (VDict le)
    ∧ deref le w' !! "JPY_INTERRUPT_EVENT" = Some (VStr (pretty h))
    ∧ deref le w' !! "IPY_INTERRUPT_EVENT" = Some (VStr (pretty h))
    ∧ ∀ pid,
        spawn_ok (id <$> ["~/kernel"]) (deref kwargs w') w' = inr pid →
        ∃ p w'',
          launch_kernel win_sys id spawn_ok ["~/kernel"] VNone VNone VNone None
            false VNone ∅ world0 = (Ret p, w'')
          ∧ win32_interrupt_event p = Some (Some h).
Proof.
  apply (win32_interrupt_event_injected_and_attached win_sys id spawn_ok
           ["~/kernel"] VNone VNone VNone None false VNone ∅ world0).
  - reflexivity.
  - vm_compute. eexists. reflexivity.
  - reflexivity.
Defined.

Lemma stdin_pipe_substituted_and_closed_witness :
  ∃ kwargs ev w',
    prepare_process_args posix_sys VNone VNone VNone None false VNone ∅ world0
      = (Ret (kwargs, ev), w')
    ∧ (VNone = VNone → deref kwargs w' !! "stdin" = Some PIPE)
    ∧ (VNone ≠ VNone → deref kwargs w' !! "stdin" = Some VNone)
    ∧ ∀ pid,
        spawn_ok (id <$> ["~/kernel"]) (deref kwargs w') w' = inr pid →
        ∃ p w'',
          launch_kernel posix_sys id spawn_ok ["~/kernel"] VNone VNone VNone None
            false VNone ∅ world0 = (Ret p, w'')
          ∧ (VNone = VNone → proc_stdin p = Some true)
          ∧ (VNone ≠ VNone →
             proc_stdin p = proc_stdin (new_proc pid (deref kwargs w'))).
Proof.
  apply (stdin_pipe_substituted_and_closed posix_sys id spawn_ok
           ["~/kernel"] VNone VNone VNone None false VNone ∅ world0).
  - vm_compute. eexists. reflexivity.
  - reflexivity.
Defined.

Lemma windowed_streams_redirected_witness :
  ∃ kwargs ev w',
    prepare_process_args pythonw_sys VNone VNone (VFile 7) None false VNone ∅ world0
      = (Ret (kwargs, ev), w')
    ∧ (windowed pythonw_sys = true →
         devnull_files w' = next_handle world0 :: devnull_files world0
         ∧ deref kwargs w' !! "stdout"
           = Some (if is_None VNone then VFile (next_handle world0) else VNone)
         ∧ deref kwargs w' !! "stderr"
           = Some (if is_None (VFile 7) then VFile (next_handle world0) else VFile 7)
         ∧ (platform pythonw_sys = "win32" →
            ∃ f, deref kwargs w' !! "creationflags" = Some (VInt f)
                 ∧ Z.land f CREATE_NO_WINDOW = CREATE_NO_WINDOW))
    ∧ (windowed pythonw_sys = false →
         devnull_files w' = devnull_files world0
         ∧ deref kwargs w' !! "stdout" = Some VNone
         ∧ deref kwargs w' !! "stderr" = Some (VFile 7)).
Proof.
  apply (windowed_streams_redirected pythonw_sys VNone VNone (VFile 7) None
           false VNone ∅ world0).
  - vm_compute. eexists. reflexivity.
  - reflexivity.
Defined.

Lemma async_launch_kernel_same_as_launch_kernel_witness :
  async_launch_kernel posix_sys id spawn_enoent ["~/kernel"] VNone VNone VNone
    (Some 2%positive) false VNone ∅ world0
  = launch_kernel posix_sys id spawn_enoent ["~/kernel"] VNone VNone VNone
      (Some 2%positive) false VNone ∅ world0.
Proof.
  apply (async_launch_kernel_same_as_launch_kernel posix_sys id spawn_enoent
           spawn_enoent).
  intros args kwargs w1. reflexivity.
Defined.

Lemma kw_copied_and_main_args_override_witness :
  ∃ kwargs le ev w',
    prepare_process_args posix_sys VNone VNone VNone None false (VStr "/tmp")
      (<["stdin" := VFile 3]> (<["bufsize" := VInt 0]> ∅)) world0
      = (Ret (kwargs, ev), w')
    ∧ kwargs ≠ kw_object world0
    ∧ heap w' !! kw_object world0
      = Some (<["stdin" := VFile 3]> (<["bufsize" := VInt 0]> ∅))
    ∧ deref kwargs w' !! "stdin" = Some (if is_None VNone then PIPE else VNone)
    ∧ deref kwargs w' !! "stdout" = Some (stream_arg posix_sys VNone world0)
    ∧ deref kwargs w' !! "stderr" = Some (stream_arg posix_sys VNone world0)
    ∧ deref kwargs w' !! "cwd" = Some (VStr "/tmp")
    ∧ deref kwargs w' !! "env" = Some (VDict le)
    ∧ ∀ k, k ∉ written_keys →
           deref kwargs w' !! k
           = (<["stdin" := VFile 3]> (<["bufsize" := VInt 0]> ∅) : gmap string pyval) !! k.
Proof.
  apply (kw_copied_and_main_args_override posix_sys VNone VNone VNone None false
           (VStr "/tmp") (<["stdin" := VFile 3]> (<["bufsize" := VInt 0]> ∅)) world0).
  - vm_compute. eexists. reflexivity.
  - reflexivity.
Defined.

Lemma windowed_devnull_opened_on_every_call_witness :
  devnull_files
    (prepare_process_args pythonw_sys VNone (VFile 7) (VFile 8) None false VNone ∅
       world0).2
  = next_handle world0 :: devnull_files world0
  ∧ devnull_files
      (launch_kernel pythonw_sys id spawn_ok ["~/kernel"] VNone (VFile 7) (VFile 8)
         None false VNone ∅ world0).2
    = next_handle world0 :: devnull_files world0
  ∧ (flags_ok ∅ = true →
     ∃ kwargs ev w',
       prepare_process_args pythonw_sys VNone (VFile 7) (VFile 8) None false VNone ∅
         world0 = (Ret (kwargs, ev), w')
       ∧ (VFile 7 ≠ VNone → VFile 8 ≠ VNone →
          deref kwargs w' !! "stdout" = Some (VFile 7)
          ∧ deref kwargs w' !! "stderr" = Some (VFile 8))
       ∧ (VFile 7 = VNone → VFile 8 = VNone →
          deref kwargs w' !! "stdout" = Some (VFile (next_handle world0))
          ∧ deref kwargs w' !! "stderr" = Some (VFile (next_handle world0)))).
Proof.
  apply (windowed_devnull_opened_on_every_call pythonw_sys id spawn_ok
           ["~/kernel"] VNone (VFile 7) (VFile 8) None false VNone ∅ world0).
  - reflexivity.
  - vm_compute. eexists. reflexivity.
Defined.

(** ** The entry-point mocks *)

(** Every entry point that [mock_get_all_provisioners] lists is the one
    [mock_get_provisioner] returns for its name. *)
Theorem mock_get_provisioner_finds_listed GROUP_NAME g ep :
  ep ∈ mock_get_all_provisioners GROUP_NAME →
  mock_get_provisioner GROUP_NAME g (ep_name ep) = inr ep.
Proof.
  unfold mock_get_all_provisioners. simpl. intros Hin.
  repeat (apply elem_of_cons in Hin as [->|Hin]; [reflexivity|]).
  by apply elem_of_nil in Hin.
Qed.

(** [mock_get_provisioner] answers a name with an entry point of that name
    and of the group, which is one of the listed ones unless the name is
    new-test-provisioner, or else raises ValueError, and then the name is
    neither new-test-provisioner nor the name of a listed entry point.  The
    entry point for new-test-provisioner is found although it is not
    listed. *)
Theorem mock_get_provisioner_cases GROUP_NAME g name :
  match mock_get_provisioner GROUP_NAME g name with
  | inr ep =>
      ep_name ep = name ∧ ep_group ep = GROUP_NAME
      ∧ (name ≠ "new-test-provisioner" → ep ∈ mock_get_all_provisioners GROUP_NAME)
      ∧ (name = "new-test-provisioner" → ep ∉ mock_get_all_provisioners GROUP_NAME)
  | inl e =>
      e = ValueError "No such entry point"
      ∧ name ≠ "new-test-provisioner"
      ∧ ∀ ep, ep ∈ mock_get_all_provisioners GROUP_NAME → ep_name ep ≠ name
  end.
Proof.
  unfold mock_get_provisioner, mock_get_all_provisioners. simpl.
  destruct (decide (name = "new-test-provisioner")) as [->|Hnew].
  { repeat split; try done. intros _ Hin.
    repeat (apply elem_of_cons in Hin as [Hin|Hin]; [discriminate Hin|]).
    by apply elem_of_nil in Hin. }
  destruct (decide ("local-provisioner" = name)) as [<-|H1].
  { repeat split; try done. intros _. apply list_elem_of_here. }
  destruct (decide ("subclassed-test-provisioner" = name)) as [<-|H2].
  { repeat split; try done. intros _.
    apply list_elem_of_further, list_elem_of_here. }
  destruct (decide ("custom-test-provisioner" = name)) as [<-|H3].
  { repeat split; try done. intros _.
    do 2 apply list_elem_of_further. apply list_elem_of_here. }
  repeat split; try done. intros ep Hin.
  repeat (apply elem_of_cons in Hin as [->|Hin]; [done|]).
  by apply elem_of_nil in Hin.
Qed.

(** ** Further runs of the model at concrete inputs *)

Lemma flags_ok_empty : flags_ok ∅ = true.
Proof. reflexivity. Qed.

Lemma win32_close_fds_disabled_witness :
  platform win_sys = "win32"
  ∧ live (default (environ win_sys) None) world0
  ∧ flags_ok (<["close_fds" := VBool true]> ∅) = true
  ∧ ∃ kwargs ev w',
      prepare_process_args win_sys VNone VNone VNone None false VNone
        (<["close_fds" := VBool true]> ∅) world0 = (Ret (kwargs, ev), w')
      ∧ deref kwargs w' !! "close_fds" = Some (VBool false).
Proof.
  assert (Hl : live (default (environ win_sys) None) world0)
    by (vm_compute; eexists; reflexivity).
  split; [reflexivity|]. split; [exact Hl|]. split; [reflexivity|].
  apply (win32_close_fds_disabled win_sys VNone VNone VNone None false VNone
           (<["close_fds" := VBool true]> ∅) world0 ltac:(reflexivity) Hl ltac:(reflexivity)).
Defined.

Lemma launch_kernel_bad_creationflags_witness :
  platform pythonw_sys = "win32"
  ∧ windowed pythonw_sys = true
  ∧ live (default (environ pythonw_sys) None) world0
  ∧ flags_ok (<["creationflags" := VStr "detached"]> ∅) = false
  ∧ ∃ w',
      launch_kernel pythonw_sys id spawn_ok ["~/kernel"] VNone VNone VNone None false
        VNone (<["creationflags" := VStr "detached"]> ∅) world0 = (Raise TypeError, w')
      ∧ spawned w' = spawned world0
      ∧ logged w' = logged world0.
Proof.
  assert (Hl : live (default (environ pythonw_sys) None) world0)
    by (vm_compute; eexists; reflexivity).
  split; [reflexivity|]. split; [reflexivity|]. split; [exact Hl|].
  split; [reflexivity|].
  apply (launch_kernel_bad_creationflags pythonw_sys id spawn_ok ["~/kernel"]
           VNone VNone VNone None VNone (<["creationflags" := VStr "detached"]> ∅)
           world0 ltac:(reflexivity) ltac:(reflexivity) Hl ltac:(reflexivity)).
Defined.

Lemma win32_creationflags_value_witness :
  platform pythonw_sys = "win32"
  ∧ live (default (environ pythonw_sys) None) world0
  ∧ flags_ok (<["creationflags" := VInt 4]> ∅) = true
  ∧ ∃ kwargs ev w',
      prepare_process_args pythonw_sys VNone VNone VNone None false VNone
        (<["creationflags" := VInt 4]> ∅) world0 = (Ret (kwargs, ev), w')
      ∧ deref kwargs w' !! "creationflags" = Some (VInt (Z.lor 4 CREATE_NO_WINDOW)).
Proof.
  assert (Hl : live (default (environ pythonw_sys) None) world0)
    by (vm_compute; eexists; reflexivity).
  split; [reflexivity|]. split; [exact Hl|]. split; [reflexivity|].
  apply (win32_creationflags_value pythonw_sys VNone VNone VNone None false VNone
           (<["creationflags" := VInt 4]> ∅) world0 ltac:(reflexivity) Hl ltac:(reflexivity)).
Defined.

Lemma posix_no_win32_plumbing_witness :
  platform posix_sys ≠ "win32"
  ∧ live (default (environ posix_sys) None) world0
  ∧ ∃ kwargs w',
      prepare_process_args posix_sys VNone VNone VNone None false VNone
        (<["creationflags" := VInt 4]> ∅) world0 = (Ret (kwargs, None), w')
      ∧ events w' = events world0
      ∧ duplicated w' = duplicated world0
      ∧ deref kwargs w' !! "creationflags"
        = (<["creationflags" := VInt 4]> ∅ : gmap string pyval) !! "creationflags".
Proof.
  assert (Hp : platform posix_sys ≠ "win32") by discriminate.
  assert (Hl : live (default (environ posix_sys) None) world0)
    by (vm_compute; eexists; reflexivity).
  split; [exact Hp|]. split; [exact Hl|].
  destruct (posix_no_win32_plumbing posix_sys VNone VNone VNone None false VNone
              (<["creationflags" := VInt 4]> ∅) world0 Hp Hl)
    as (kwargs & le & w' & Hrun & He & Hd & Hc & _).
  exists kwargs, w'. repeat split; assumption.
Defined.

Lemma spawn_failure_diagnostic_witness :
  live 2%positive world0
  ∧ flags_ok ∅ = true
  ∧ ∃ kwargs ev w',
      prepare_process_args posix_sys VNone VNone VNone (Some 2%positive) false VNone ∅
        world0 = (Ret (kwargs, ev), w')
      ∧ spawn_enoent (id <$> ["~/kernel"]) (deref kwargs w') w' = inl (OSError 2)
      ∧ ∃ entry w'',
          launch_kernel posix_sys id spawn_enoent ["~/kernel"] VNone VNone VNone
            (Some 2%positive) false VNone ∅ world0 = (Raise (OSError 2), w'')
          ∧ logged w'' = entry :: logged world0
          ∧ log_path entry = VStr (defpath posix_sys)
          ∧ log_kwargs entry !! "env" = None.
Proof.
  assert (Hl : live 2%positive world0) by (vm_compute; eexists; reflexivity).
  split; [exact Hl|]. split; [reflexivity|].
  destruct (spawn_failure_diagnostic posix_sys id spawn_enoent ["~/kernel"]
              VNone VNone VNone 2%positive false VNone ∅ world0 Hl flags_ok_empty)
    as (kwargs & ev & w' & Hrun & Hfail).
  exists kwargs, ev, w'. split; [exact Hrun|]. split; [reflexivity|].
  destruct (Hfail (OSError 2) ltac:(reflexivity) ltac:(reflexivity))
    as (entry & w'' & Hlaunch & Hlog & _ & Hpath & Henv & _).
  exists entry, w''. repeat split; assumption.
Defined.


Lemma launch_kernel_success_witness :
  live (default (environ posix_sys) None) world0
  ∧ flags_ok ∅ = true
  ∧ ∃ kwargs ev w',
      prepare_process_args posix_sys VNone VNone VNone None false VNone ∅ world0
        = (Ret (kwargs, ev), w')
      ∧ spawn_ok (id <$> ["~/kernel"]) (deref kwargs w') w' = inr 77
      ∧ ∃ p w'',
          launch_kernel posix_sys id spawn_ok ["~/kernel"] VNone VNone VNone None
            false VNone ∅ world0 = (Ret p, w'')
          ∧ proc_pid p = 77
          ∧ spawned w'' = (id <$> ["~/kernel"]) :: spawned world0
          ∧ logged w'' = logged world0.
Proof.
  assert (Hl : live (default (environ posix_sys) None) world0)
    by (vm_compute; eexists; reflexivity).
  split; [exact Hl|]. split; [reflexivity|].
  destruct (launch_kernel_success posix_sys id spawn_ok ["~/kernel"]
              VNone VNone VNone None false VNone ∅ world0 Hl flags_ok_empty)
    as (kwargs & ev & w' & Hrun & Hok).
  exists kwargs, ev, w'. split; [exact Hrun|]. split; [reflexivity|].
  destruct (Hok 77 ltac:(reflexivity)) as (p & w'' & Hlaunch & Hpid & Hs & Hlog & _).
  exists p, w''. repeat split; assumption.
Defined.

Lemma other_environment_variables_kept_witness :
  live (default (environ posix_sys) None) world0
  ∧ flags_ok ∅ = true
  ∧ ∃ kwargs le ev w',
      prepare_process_args posix_sys VNone VNone VNone None false VNone ∅ world0
        = (Ret (kwargs, ev), w')
      ∧ deref kwargs w' !! "env" = Some (VDict le)
      ∧ ∀ k, k ∉ injected_keys →
             deref le w' !! k = deref (default (environ posix_sys) None) world0 !! k.
Proof.
  assert (Hl : live (default (environ posix_sys) None) world0)
    by (vm_compute; eexists; reflexivity).
  split; [exact Hl|]. split; [reflexivity|].
  apply (other_environment_variables_kept posix_sys VNone VNone VNone None false
           VNone ∅ world0 Hl flags_ok_empty).
Defined.

Lemma posix_env_reused_across_launches_witness :
  platform posix_sys ≠ "win32"
  ∧ live 2%positive world0
  ∧ ∃ kwargs1 w1 kwargs2 w2,
      prepare_process_args posix_sys VNone VNone VNone (Some 2%positive) false VNone ∅
        world0 = (Ret (kwargs1, None), w1)
      ∧ prepare_process_args posix_sys VNone VNone VNone (Some 2%positive) true VNone ∅
          w1 = (Ret (kwargs2, None), w2)
      ∧ deref kwargs2 w2 !! "env" = Some (VDict 2%positive)
      ∧ deref 2%positive w2 = deref 2%positive w1
      ∧ deref 2%positive w2 !! "JPY_PARENT_PID" = Some (VStr (pretty (getpid posix_sys))).
Proof.
  assert (Hp : platform posix_sys ≠ "win32") by discriminate.
  assert (Hl : live 2%positive world0) by (vm_compute; eexists; reflexivity).
  split; [exact Hp|]. split; [exact Hl|].
  apply (posix_env_reused_across_launches posix_sys VNone VNone VNone VNone ∅
           VNone VNone VNone true VNone ∅ 2%positive world0 Hp Hl).
Defined.

Lemma provisioner_without_process_is_inert_witness :
  self_process provisioner0 = None
  ∧ CustomTestProvisioner_poll (exits_after 0 0) provisioner0 = (Some 0, provisioner0)
  ∧ CustomTestProvisioner_wait (exits_after 0 0) (λ _, 0) 0 provisioner0
    = Some (Ret 0, provisioner0)
  ∧ CustomTestProvisioner_send_signal posix_sys (λ _ _, None) true SIGINT provisioner0
    = (Ret tt, provisioner0).
Proof.
  split; [reflexivity|].
  destruct (provisioner_without_process_is_inert posix_sys (exits_after 0 0) (λ _, 0)
              (λ _ _, None) true provisioner0 0%nat SIGINT false ltac:(reflexivity))
    as (_ & Hpoll & Hwait & Hsend & _).
  repeat split; assumption.
Defined.

Lemma wait_returns_exit_code_and_drops_process_witness :
  self_process provisioner77 = Some process77
  ∧ po_returncode process77 = None
  ∧ (∀ i, (i < 2)%nat →
          exits_after 2 3 (proc_pid (po_proc process77)) (clock provisioner77 + i) = None)
  ∧ exits_after 2 3 (proc_pid (po_proc process77)) (clock provisioner77 + 2) = Some 3
  ∧ (2 < 3)%nat
  ∧ ∃ self',
      CustomTestProvisioner_wait (exits_after 2 3) (λ _, 0) 3 provisioner77
        = Some (Ret 3, self')
      ∧ CustomTestProvisioner_has_process self' = false
      ∧ clock self' = (clock provisioner77 + 2)%nat.
Proof.
  assert (Hrun : ∀ i, (i < 2)%nat →
            exits_after 2 3 (proc_pid (po_proc process77)) (clock provisioner77 + i)
            = None).
  { intros i Hi. destruct i as [|[|i]]; [reflexivity|reflexivity|lia]. }
  split; [reflexivity|]. split; [reflexivity|]. split; [exact Hrun|].
  split; [reflexivity|]. split; [lia|].
  destruct (wait_returns_exit_code_and_drops_process (exits_after 2 3) (λ _, 0)
              provisioner77 process77 2%nat 3 3%nat ltac:(reflexivity) ltac:(reflexivity) Hrun ltac:(reflexivity)
              ltac:(lia))
    as (self' & closes & Hwait & Hhas & Hclock & _).
  exists self'. repeat split; assumption.
Defined.

Lemma send_signal_dispatch_witness :
  self_process provisioner77 = Some process77
  ∧ CustomTestProvisioner_send_signal posix_sys (λ _ _, Some (OSError 3)) true 15
      provisioner77
    = (Ret tt, record_call (SendSignal 77 15) (record_call (KillPg 77 15) provisioner77)).
Proof.
  split; [reflexivity|].
  destruct (send_signal_dispatch posix_sys (λ _ _, Some (OSError 3)) true 15
              provisioner77 process77 ltac:(reflexivity)) as (_ & Hgroup & _).
  assert (Hn : ¬ (15 = SIGINT ∧ win32 posix_sys = true)).
  { intros [H _]. discriminate H. }
  destruct (Hgroup Hn 77 ltac:(reflexivity) ltac:(lia) ltac:(reflexivity)) as (_ & Hfallback & _).
  exact (Hfallback 3 ltac:(reflexivity)).
Defined.

Lemma provisioner_launch_then_wait_witness :
  live (default (environ posix_sys) None) (self_world provisioner0)
  ∧ flags_ok ∅ = true
  ∧ (∀ pid e, true = true → (inr pid : exception + Z) = inl e → ∃ errno, e = OSError errno)
  ∧ ∃ self1 self2,
      CustomTestProvisioner_launch_kernel posix_sys id spawn_ok (λ pid, inr pid) true
        ["~/kernel"] VNone PIPE VNone None false VNone ∅ provisioner0
        = (Ret (self_connection_info provisioner0), self1)
      ∧ CustomTestProvisioner_has_process self1 = true
      ∧ self_pid self1 = Some 77
      ∧ CustomTestProvisioner_wait (exits_after 1 0) (λ _, 0) 2 self1
        = Some (Ret 0, self2)
      ∧ CustomTestProvisioner_has_process self2 = false.
Proof.
  assert (Hl : live (default (environ posix_sys) None) (self_world provisioner0))
    by (vm_compute; eexists; reflexivity).
  assert (Hg : ∀ pid e, true = true → (inr pid : exception + Z) = inl e →
                        ∃ errno, e = OSError errno)
    by (intros pid e _ H; discriminate H).
  split; [exact Hl|]. split; [reflexivity|]. split; [exact Hg|].
  destruct (provisioner_launch_then_wait posix_sys id spawn_ok (exits_after 1 0)
              (λ _, 0) (λ pid, inr pid) true ["~/kernel"] VNone PIPE VNone None false
              VNone ∅ provisioner0 1%nat 0 2%nat Hl flags_ok_empty Hg)
    as (kwargs & ev & w' & Hrun & Hlife).
  assert (Hpoll : ∀ i, (i < 1)%nat → exits_after 1 0 77 (clock provisioner0 + i) = None).
  { intros i Hi. destruct i as [|i]; [reflexivity|lia]. }
  destruct (Hlife 77 ltac:(reflexivity) Hpoll ltac:(reflexivity) ltac:(lia))
    as (self1 & self2 & closes & Hlaunch & Hhas1 & Hpid & Hwait & Hhas2 & _).
  exists self1, self2. repeat split; assumption.
Defined.

Lemma mock_get_provisioner_finds_listed_witness :
  let ep := Build_EntryPoint "custom-test-provisioner"
              "tests.test_provisioning:CustomTestProvisioner" "group" in
  ep ∈ mock_get_all_provisioners "group"
  ∧ mock_get_provisioner "group" "ignored" "custom-test-provisioner" = inr ep.
Proof.
  cbv zeta.
  assert (Hin : Build_EntryPoint "custom-test-provisioner"
                  "tests.test_provisioning:CustomTestProvisioner" "group"
                ∈ mock_get_all_provisioners "group").
  { do 2 apply list_elem_of_further. apply list_elem_of_here. }
  split; [exact Hin|].
  exact (mock_get_provisioner_finds_listed "group" "ignored" _ Hin).
Defined.
